(** * Product dashboard: the client-side filter / sort / paginate pipeline

    A shallow embedding of [src/main.js] (classes [SearchFilter],
    [PaginationController], [SortController] and [DashboardController]) and
    the properties of the pipeline that the specification states.

    Conventions of the embedding:
    - a JavaScript number that the pipeline computes with (a price, a page
      number, a page size, a length) is a [Z];
    - a JavaScript string is a [string]; the operations the engine provides
      on strings and whose result depends on the Unicode tables or on the
      locale ([toLowerCase], [trim], [localeCompare]) are the fields of the
      class [StringHost];
    - an object field that may be absent is an [option];
    - a value handed to a function that checks [Array.isArray] is a
      [JsValue];
    - DOM rendering and console logging are left out: they read the state
      and never write it. *)

From Stdlib Require Import ZArith Lia Bool Ascii String Sorted Permutation.
From Stdlib Require Import DecimalString DecimalPos DecimalZ.
From stdpp Require Import base list gmap strings sorting.

Local Open Scope Z_scope.

(** ** String operations provided by the engine *)

(** [localeCompare] returns a number whose sign orders its arguments; the
    two laws are those of a consistent comparator (ECMA-262, 23.1.3.30.2).
    [toLowerCase] never turns a non-empty string into the empty one. *)
Class StringHost := {
  toLowerCase : string -> string;
  trim : string -> string;
  localeCompare : string -> string -> Z;
  toLowerCase_empty : toLowerCase EmptyString = EmptyString;
  toLowerCase_nonempty : forall s, toLowerCase s = EmptyString -> s = EmptyString;
  localeCompare_antisym :
    forall a b, Z.sgn (localeCompare b a) = - Z.sgn (localeCompare a b);
  localeCompare_trans :
    forall a b c, localeCompare a b <= 0 -> localeCompare b c <= 0 ->
                  localeCompare a c <= 0
}.

(** [s.includes(t)]: [t] occurs in [s] as a contiguous run of code units. *)
Fixpoint includes (s t : string) : bool :=
  String.prefix t s ||
  match s with
  | EmptyString => false
  | String _ s' => includes s' t
  end.

(** The length test [term.length === 0]. *)
Definition isEmptyString (s : string) : bool :=
  match s with EmptyString => true | String _ _ => false end.

(** ** Data model *)

Record Product := {
  id : Z;
  title : option string;
  price : option Z;
  description : option string;
  category : option string;
  images : list string
}.

(** What a caller may pass where a collection is expected. *)
Inductive JsValue :=
| JsUndefined
| JsNull
| JsNumber (n : Z)
| JsString (s : string)
| JsObject
| JsArray (l : list Product).

(** JavaScript truthiness, as used by [!products]. *)
Definition truthy (v : JsValue) : bool :=
  match v with
  | JsUndefined | JsNull => false
  | JsNumber n => negb (n =? 0)
  | JsString s => negb (isEmptyString s)
  | JsObject | JsArray _ => true
  end.

Definition isArray (v : JsValue) : bool :=
  match v with JsArray _ => true | _ => false end.

(** The elements of a value known to be an array. *)
Definition elements (v : JsValue) : list Product :=
  match v with JsArray l => l | _ => [] end.

(** The guard [!products || !Array.isArray(products)] shared by [filter],
    [sortByPrice], [sortByName] and [getPagedData]. *)
Definition notACollection (v : JsValue) : bool :=
  negb (truthy v) || negb (isArray v).

(** The [term] argument of [filter]. *)
Inductive JsTerm :=
| TermUndefined
| TermNull
| TermString (s : string).

(** [!term || term.length === 0] *)
Definition noTerm (t : JsTerm) : bool :=
  match t with
  | TermUndefined | TermNull => true
  | TermString s => isEmptyString s || isEmptyString s
  end.

(** ** SearchFilter *)

Record SearchFilter := { searchTerm : string }.

Section WithHost.
Context `{StringHost}.

(** The callback of [products.filter] in [SearchFilter.filter]:
    [!product || !product.title] rejects a product without a title or with
    the empty title (an element of a product collection is an object, so
    [!product] is false). *)
Definition titleMatches (searchTermLower : string) (product : Product) : bool :=
  match title product with
  | None => false
  | Some t =>
      if isEmptyString t then false
      else includes (toLowerCase t) searchTermLower
  end.

(** [filter(products, term = this.searchTerm)]: an argument that is
    [undefined] takes the default, the stored search term. *)
Definition filter (this : SearchFilter) (products : JsValue) (term : JsTerm)
  : list Product :=
  let term := match term with
              | TermUndefined => TermString (searchTerm this)
              | _ => term
              end in
  if notACollection products then []
  else if noTerm term then elements products
  else
    match term with
    | TermString s =>
        let searchTermLower := toLowerCase s in
        List.filter (titleMatches searchTermLower) (elements products)
    | _ => elements products
    end.

Definition getSearchTerm (this : SearchFilter) : string := searchTerm this.

End WithHost.

(** ** Array.prototype.sort *)

(** [arr.sort(compareFn)] is a stable sort (ECMA-262 since ES2019): for a
    consistent comparator the result is determined, the elements in
    non-decreasing order of [compareFn] with ties in their original order.
    It is modelled by a stable insertion sort: an element is put in front of
    the first element of the sorted rest that it does not exceed. *)
Section Sort.
Context {A : Type} (compareFn : A -> A -> Z).

Fixpoint insertSorted (x : A) (l : list A) : list A :=
  match l with
  | [] => [x]
  | y :: ys =>
      if compareFn x y <=? 0 then x :: y :: ys
      else y :: insertSorted x ys
  end.

Fixpoint sortWith (l : list A) : list A :=
  match l with
  | [] => []
  | x :: xs => insertSorted x (sortWith xs)
  end.

(** A consistent comparator: the sign is antisymmetric and [<= 0] is
    transitive. *)
Record ConsistentComparator : Prop := {
  cmp_antisym : forall a b, Z.sgn (compareFn b a) = - Z.sgn (compareFn a b);
  cmp_trans : forall a b c,
      compareFn a b <= 0 -> compareFn b c <= 0 -> compareFn a c <= 0
}.

(** [x] and [y] are a tie for the comparator. *)
Definition tie (x y : A) : bool := compareFn x y =? 0.

(** [x] may come before [y]. *)
Definition inOrder (x y : A) : Prop := compareFn x y <= 0.

End Sort.

(** ** SortController *)

Inductive Direction := Asc | Desc.

(** [currentSort]: [field] is [null] or a string. *)
Record SortConfig := {
  field : option string;
  direction : Direction
}.

Record SortController := { currentSort : SortConfig }.

(** The constructor's [{ field: null, direction: 'asc' }]. *)
Definition newSortController : SortController :=
  {| currentSort := {| field := None; direction := Asc |} |}.

(** [a.price || 0] *)
Definition priceOrZero (p : Product) : Z :=
  match price p with
  | Some v => if v =? 0 then 0 else v
  | None => 0
  end.

(** [a.title || ''] *)
Definition titleOrEmpty (p : Product) : string :=
  match title p with
  | Some t => if isEmptyString t then EmptyString else t
  | None => EmptyString
  end.

(** The comparator of [sortByPrice]. *)
Definition priceCompare (direction : Direction) (a b : Product) : Z :=
  let priceA := priceOrZero a in
  let priceB := priceOrZero b in
  match direction with
  | Asc => priceA - priceB
  | Desc => priceB - priceA
  end.

Definition sortByPrice (products : JsValue) (direction : Direction)
  : list Product :=
  if notACollection products then []
  else sortWith (priceCompare direction) (elements products).

Section WithHostSort.
Context `{StringHost}.

(** The comparator of [sortByName]. *)
Definition nameCompare (direction : Direction) (a b : Product) : Z :=
  let titleA := toLowerCase (titleOrEmpty a) in
  let titleB := toLowerCase (titleOrEmpty b) in
  match direction with
  | Asc => localeCompare titleA titleB
  | Desc => localeCompare titleB titleA
  end.

Definition sortByName (products : JsValue) (direction : Direction)
  : list Product :=
  if notACollection products then []
  else sortWith (nameCompare direction) (elements products).

(** [!this.currentSort.field]: [null] and the empty string are falsy. *)
Definition noField (f : option string) : bool :=
  match f with
  | None => true
  | Some s => isEmptyString s
  end.

(** [this.currentSort.field === field] *)
Definition fieldIs (f : option string) (name : string) : bool :=
  match f with
  | None => false
  | Some s => String.eqb s name
  end.

Definition flipDirection (d : Direction) : Direction :=
  match d with Asc => Desc | Desc => Asc end.

(** [toggleSort(field)]; the second component tells that the sort-change
    callback is invoked. *)
Definition toggleSort (this : SortController) (fld : string)
  : SortController * bool :=
  let cs := currentSort this in
  let cs' :=
    if fieldIs (field cs) fld
    then {| field := field cs; direction := flipDirection (direction cs) |}
    else {| field := Some fld; direction := Asc |} in
  ({| currentSort := cs' |}, true).

(** [applySorting(products)] returns its argument itself when no sort
    applies, so its result is a [JsValue]. *)
Definition applySorting (this : SortController) (products : JsValue) : JsValue :=
  let cs := currentSort this in
  if noField (field cs) then products
  else if fieldIs (field cs) "price" then
    JsArray (sortByPrice products (direction cs))
  else if fieldIs (field cs) "title" then
    JsArray (sortByName products (direction cs))
  else products.

Definition getSortConfig (this : SortController) : SortConfig :=
  {| field := field (currentSort this);
     direction := direction (currentSort this) |}.

Definition clearSort (this : SortController) : SortController :=
  {| currentSort := {| field := None; direction := Asc |} |}.

End WithHostSort.

(** ** PaginationController *)

Record PaginationController := {
  currentPage : Z;
  pageSize : Z;
  totalItems : Z;
  totalPages : Z
}.

(** The constructor: page 1, ten items a page. *)
Definition newPaginationController : PaginationController :=
  {| currentPage := 1; pageSize := 10; totalItems := 0; totalPages := 0 |}.

(** [Math.ceil(n / d)] on integers, for a divisor that is not zero; the page
    size is 5, 10 or 20 in every state the controller reaches. *)
Definition ceilDiv (n d : Z) : Z := - ((- n) / d).

(** The index normalisation of [Array.prototype.slice]: a negative index
    counts from the end, and the result is kept within [0, len]. *)
Definition relativeIndex (len i : Z) : Z :=
  if i <? 0 then Z.max (len + i) 0 else Z.min i len.

(** [data.slice(start, end)] *)
Definition slice {A : Type} (data : list A) (startIndex endIndex : Z) : list A :=
  let len := Z.of_nat (length data) in
  let k := relativeIndex len startIndex in
  let final := relativeIndex len endIndex in
  take (Z.to_nat (final - k)) (drop (Z.to_nat k) data).

(** [getPagedData(data)]: the new state of the controller and the page. *)
Definition getPagedData (this : PaginationController) (data : JsValue)
  : PaginationController * list Product :=
  if notACollection data then (this, [])
  else
    let totalItems' := Z.of_nat (length (elements data)) in
    let totalPages' := ceilDiv totalItems' (pageSize this) in
    let cp1 :=
      if (currentPage this >? totalPages') && (totalPages' >? 0)
      then totalPages' else currentPage this in
    let cp2 := if cp1 <? 1 then 1 else cp1 in
    let startIndex := (cp2 - 1) * pageSize this in
    let endIndex := startIndex + pageSize this in
    ({| currentPage := cp2; pageSize := pageSize this;
        totalItems := totalItems'; totalPages := totalPages' |},
     slice (elements data) startIndex endIndex).

(** [goToPage(page)]; the second component tells that the page-change
    callback is invoked. *)
Definition goToPage (this : PaginationController) (page : Z)
  : PaginationController * bool :=
  if (page <? 1) || (page >? totalPages this) then (this, false)
  else
    ({| currentPage := page; pageSize := pageSize this;
        totalItems := totalItems this; totalPages := totalPages this |}, true).

Definition validSizes : list Z := [5; 10; 20].

(** [validSizes.includes(size)] *)
Definition arrayIncludes (l : list Z) (x : Z) : bool := existsb (Z.eqb x) l.

(** [changePageSize(size)]; the second component tells that the
    page-size-change callback is invoked. *)
Definition changePageSize (this : PaginationController) (size : Z)
  : PaginationController * bool :=
  if negb (arrayIncludes validSizes size) then (this, false)
  else
    ({| currentPage := 1; pageSize := size;
        totalItems := totalItems this; totalPages := totalPages this |}, true).

Definition getPaginationState (this : PaginationController)
  : PaginationController := this.

(** ** DashboardController *)

Record DashboardController := {
  products : list Product;
  filteredProducts : JsValue;
  currentPageProducts : list Product;
  searchFilter : SearchFilter;
  paginationController : PaginationController;
  sortController : SortController
}.

(** The two methods a component callback may call. *)
Inductive ControllerMethod := CallApplyFilters | CallUpdateDisplay.

(** The callbacks the components hold once the constructor has run. *)
Record Callbacks := {
  onSearchChange : ControllerMethod;
  onPageChange : ControllerMethod;
  onPageSizeChange : ControllerMethod;
  onSortChange : ControllerMethod
}.

(** [initializeComponents()] *)
Definition initializeComponents : Callbacks :=
  {| onSearchChange := CallApplyFilters;
     onPageChange := CallUpdateDisplay;
     onPageSizeChange := CallApplyFilters;
     onSortChange := CallApplyFilters |}.

(** What the user and the network do to the dashboard. *)
Inductive UIEvent :=
| SearchInput (value : string)
| SortPriceClick
| SortNameClick
| PageButtonClick (pageNumber : Z)
| PrevClick
| NextClick
| PageSizeSelect (newPageSize : Z)
| FetchResolved (result : option (list Product)).

Definition withPagination (c : DashboardController) (pc : PaginationController)
  : DashboardController :=
  {| products := products c; filteredProducts := filteredProducts c;
     currentPageProducts := currentPageProducts c;
     searchFilter := searchFilter c; paginationController := pc;
     sortController := sortController c |}.

Definition withSort (c : DashboardController) (sc : SortController)
  : DashboardController :=
  {| products := products c; filteredProducts := filteredProducts c;
     currentPageProducts := currentPageProducts c;
     searchFilter := searchFilter c;
     paginationController := paginationController c; sortController := sc |}.

Definition withSearch (c : DashboardController) (sf : SearchFilter)
  : DashboardController :=
  {| products := products c; filteredProducts := filteredProducts c;
     currentPageProducts := currentPageProducts c;
     searchFilter := sf; paginationController := paginationController c;
     sortController := sortController c |}.

Section WithHostController.
Context `{StringHost}.

(** The constructor. *)
Definition newDashboardController : DashboardController :=
  {| products := []; filteredProducts := JsArray [];
     currentPageProducts := [];
     searchFilter := {| searchTerm := EmptyString |};
     paginationController := newPaginationController;
     sortController := newSortController |}.

(** [updateDisplay()] *)
Definition updateDisplay (this : DashboardController) : DashboardController :=
  let '(pc, page) :=
    getPagedData (paginationController this) (filteredProducts this) in
  {| products := products this; filteredProducts := filteredProducts this;
     currentPageProducts := page;
     searchFilter := searchFilter this; paginationController := pc;
     sortController := sortController this |}.

(** The filter and sort steps of [applyFilters()], on [this.products]. *)
Definition filterAndSort (this : DashboardController) : JsValue :=
  let filtered := JsArray (products this) in
  let searchTerm := getSearchTerm (searchFilter this) in
  let filtered :=
    if negb (isEmptyString searchTerm)
    then JsArray (filter (searchFilter this) filtered (TermString searchTerm))
    else filtered in
  applySorting (sortController this) filtered.

(** [applyFilters()] *)
Definition applyFilters (this : DashboardController) : DashboardController :=
  let filtered := filterAndSort this in
  updateDisplay
    {| products := products this; filteredProducts := filtered;
       currentPageProducts := currentPageProducts this;
       searchFilter := searchFilter this;
       paginationController := paginationController this;
       sortController := sortController this |}.

Definition invoke (m : ControllerMethod) (this : DashboardController)
  : DashboardController :=
  match m with
  | CallApplyFilters => applyFilters this
  | CallUpdateDisplay => updateDisplay this
  end.

(** A component method ran and tells whether its callback is to be called. *)
Definition notify (fired : bool) (m : ControllerMethod)
    (this : DashboardController) : DashboardController :=
  if fired then invoke m this else this.

(** The event listeners of the components and the body of [init()] after
    the fetch. *)
Definition handle (this : DashboardController) (ev : UIEvent)
  : DashboardController :=
  let cbs := initializeComponents in
  let pc := paginationController this in
  match ev with
  | SearchInput value =>
      invoke (onSearchChange cbs)
        (withSearch this {| searchTerm := trim value |})
  | SortPriceClick =>
      let '(sc, fired) := toggleSort (sortController this) "price" in
      notify fired (onSortChange cbs) (withSort this sc)
  | SortNameClick =>
      let '(sc, fired) := toggleSort (sortController this) "title" in
      notify fired (onSortChange cbs) (withSort this sc)
  | PageButtonClick pageNumber =>
      let '(pc', fired) := goToPage pc pageNumber in
      notify fired (onPageChange cbs) (withPagination this pc')
  | PrevClick =>
      if currentPage pc >? 1 then
        let '(pc', fired) := goToPage pc (currentPage pc - 1) in
        notify fired (onPageChange cbs) (withPagination this pc')
      else this
  | NextClick =>
      if currentPage pc <? totalPages pc then
        let '(pc', fired) := goToPage pc (currentPage pc + 1) in
        notify fired (onPageChange cbs) (withPagination this pc')
      else this
  | PageSizeSelect newPageSize =>
      let '(pc', fired) := changePageSize pc newPageSize in
      notify fired (onPageSizeChange cbs) (withPagination this pc')
  | FetchResolved (Some fetched) =>
      applyFilters
        {| products := fetched; filteredProducts := filteredProducts this;
           currentPageProducts := currentPageProducts this;
           searchFilter := searchFilter this;
           paginationController := paginationController this;
           sortController := sortController this |}
  | FetchResolved None => this
  end.

(** The dashboard after a history of events, oldest first. *)
Definition run (evs : list UIEvent) : DashboardController :=
  fold_left handle evs newDashboardController.

End WithHostController.

(** ** Arrays as objects in a store

    [sortByPrice] and [sortByName] copy their argument with [[...products]]
    and sort the copy in place.  To state that the argument is left alone,
    arrays live in a store and are passed by reference. *)

Definition loc := positive.
Abbreviation Store := (gmap loc (list Product)).

Inductive Ref :=
| RefUndefined
| RefNull
| RefArray (l : loc).

(** The value a reference stands for. *)
Definition deref (σ : Store) (r : Ref) : JsValue :=
  match r with
  | RefUndefined => JsUndefined
  | RefNull => JsNull
  | RefArray l =>
      match σ !! l with
      | Some elems => JsArray elems
      | None => JsUndefined
      end
  end.

(** An array literal or a spread: a new array object. *)
Definition allocArray (σ : Store) (elems : list Product) : Store * loc :=
  let l := fresh (dom σ) in (<[l := elems]> σ, l).

(** [arr.sort(compareFn)] rearranges [arr] itself. *)
Definition sortInPlace (compareFn : Product -> Product -> Z)
    (σ : Store) (l : loc) : Store :=
  alter (sortWith compareFn) l σ.

Definition sortByPriceRef (σ : Store) (products : Ref) (direction : Direction)
  : Store * loc :=
  if notACollection (deref σ products) then allocArray σ []
  else
    let '(σ1, copy) := allocArray σ (elements (deref σ products)) in
    (sortInPlace (priceCompare direction) σ1 copy, copy).

(** ** Numbers in text *)

(** [String(n)] and the interpolation of an integer into a template
    literal: the decimal digits, with a minus sign in front of a negative
    number. *)
Definition numberToString (n : Z) : string :=
  NilZero.string_of_int (Z.to_int n).

(** [Number(s)] for a string of decimal digits, as the coercion in
    [status >= 500] computes it; [None] is [NaN]. *)
Definition digitsToNumber (s : string) : option Z :=
  option_map Z.of_uint (NilZero.uint_of_string s).

(** [n.toFixed(2)] for an integer. *)
Definition toFixed2 (n : Z) : string := numberToString n +:+ ".00".

(** The character class [\d]. *)
Definition isDigit (c : ascii) : bool :=
  let n := N_of_ascii c in ((48 <=? n) && (n <=? 57))%N.

(** The longest run of digits at the start of a string: a greedy [\d*]. *)
Fixpoint takeDigits (s : string) : string :=
  match s with
  | EmptyString => EmptyString
  | String c s' => if isDigit c then String c (takeDigits s') else EmptyString
  end.

(** What follows the literal [p] at the start of [s], if [s] starts with
    it. *)
Fixpoint afterPrefix (p s : string) : option string :=
  match p with
  | EmptyString => Some s
  | String a p' =>
      match s with
      | EmptyString => None
      | String b s' => if Ascii.eqb a b then afterPrefix p' s' else None
      end
  end.

(** [message.match(/status: (\d+)/)?.[1]]: the digits of the leftmost
    place where ["status: "] is followed by at least one digit; [None] is
    [undefined]. *)
Fixpoint matchStatus (message : string) : option string :=
  let here :=
    match afterPrefix "status: " message with
    | Some rest =>
        let digits := takeDigits rest in
        if isEmptyString digits then None else Some digits
    | None => None
    end in
  match here with
  | Some digits => Some digits
  | None =>
      match message with
      | EmptyString => None
      | String _ rest => matchStatus rest
      end
  end.

(** [status >= k] for [status] a matched string or [undefined]. *)
Definition statusAtLeast (status : option string) (k : Z) : bool :=
  match status with
  | None => false
  | Some s =>
      match digitsToNumber s with
      | Some n => k <=? n
      | None => false
      end
  end.

(** ** APIService *)

(** An exception: its [name] and its [message]. *)
Record JsError := { errorName : string; errorMessage : string }.

(** [new Error(message)] *)
Definition newError (message : string) : JsError :=
  {| errorName := "Error"; errorMessage := message |}.

(** What [fetch] resolves to: [ok], [status] and the outcome of
    [response.json()], an exception or the parsed value. *)
Record Response := {
  ok : bool;
  status : Z;
  json : JsError + JsValue
}.

(** [fetch] rejects or resolves. *)
Inductive FetchOutcome :=
| FetchRejected (error : JsError)
| FetchFulfilled (response : Response).

(** The double quote. *)
Definition quote : string := String (ascii_of_nat 34) EmptyString.

(** The markup [<div class="error-message">${message}</div>]. *)
Definition errorMessageDiv (message : string) : string :=
  "<div class=" +:+ quote +:+ "error-message" +:+ quote +:+ ">"
    +:+ message +:+ "</div>".

(** [displayError(message)]: the new content of the error container. *)
Definition displayError (message : string) : string := errorMessageDiv message.

(** [clearError()] *)
Definition clearError : string := EmptyString.

Definition genericErrorText : string := "Đã xảy ra lỗi khi tải dữ liệu sản phẩm".
Definition networkErrorText : string :=
  "Không thể kết nối đến server. Vui lòng kiểm tra kết nối internet của bạn.".
Definition serverErrorText : string := "Lỗi server. Vui lòng thử lại sau.".
Definition clientErrorText : string := "Yêu cầu không hợp lệ. Vui lòng thử lại.".
Definition invalidDataText : string := "Dữ liệu nhận được không hợp lệ.".
Definition timeoutText : string := "Yêu cầu đã bị hủy do timeout.".

(** The message [handleError(error)] chooses. *)
Definition errorMessageFor (error : JsError) : string :=
  let errorMessage0 := genericErrorText in
  if String.eqb (errorName error) "TypeError"
     && includes (errorMessage error) "fetch"
  then networkErrorText
  else if includes (errorMessage error) "HTTP error" then
    let status := matchStatus (errorMessage error) in
    if statusAtLeast status 500 then serverErrorText
    else if statusAtLeast status 400 then clientErrorText
    else errorMessage0
  else if includes (errorMessage error) "Invalid data format" then
    invalidDataText
  else if String.eqb (errorName error) "AbortError" then timeoutText
  else errorMessage0.

(** [handleError(error)]: the new content of the error container. *)
Definition handleError (error : JsError) : string :=
  displayError (errorMessageFor error).

(** The [try] block of [getAllProducts()]: the exception thrown in it or
    the products it returns. *)
Definition tryGetAllProducts (outcome : FetchOutcome) : JsError + list Product :=
  match outcome with
  | FetchRejected error => inl error
  | FetchFulfilled response =>
      if negb (ok response) then
        inl (newError ("HTTP error! status: " +:+ numberToString (status response)))
      else
        match json response with
        | inl error => inl error
        | inr products =>
            if negb (isArray products) then
              inl (newError "Invalid data format received from API")
            else inr (elements products)
        end
  end.

(** [getAllProducts()]: the [catch] block reports the exception and throws
    it again.  The second component is the error container afterwards. *)
Definition getAllProducts (outcome : FetchOutcome) (errorContainer : string)
  : (JsError + list Product) * string :=
  match tryGetAllProducts outcome with
  | inl error => (inl error, handleError error)
  | inr products => (inr products, errorContainer)
  end.

(** ** TableRenderer *)

(** [value || fallback] for a string field that may be absent. *)
Definition orElse (value : option string) (fallback : string) : string :=
  match value with
  | Some s => if isEmptyString s then fallback else s
  | None => fallback
  end.

(** The content of the image cell: the [img] element with its [src] and
    [alt], or the placeholder that reads "No Image". *)
Inductive ImageCell :=
| ProductImage (src alt : string)
| NoImagePlaceholder.

(** A row of the table body: the tokens of its [class] attribute and what
    its five cells hold. *)
Record TableRow := {
  rowClassList : list string;
  imageCell : ImageCell;
  titleCellText : string;
  priceCellText : string;
  descriptionCellText : string;
  descriptionCellTitle : option string;
  categoryCellText : string
}.

(** [classList.remove(...tokens)] *)
Definition classListRemove (tokens classes : list string) : list string :=
  List.filter (fun c => negb (existsb (String.eqb c) tokens)) classes.

(** [classList.add(token)] *)
Definition classListAdd (token : string) (classes : list string) : list string :=
  if existsb (String.eqb token) classes then classes else classes ++ [token].

(** [renderRow(product, index)] *)
Definition renderRow (product : Product) (index : nat) : TableRow :=
  {| rowClassList :=
       if (Z.of_nat index mod 2 =? 0) then ["table-row-light"]
       else ["table-row-dark"];
     imageCell :=
       match images product with
       | first :: _ => ProductImage first (orElse (title product) "Product image")
       | [] => NoImagePlaceholder
       end;
     titleCellText := orElse (title product) "Untitled Product";
     priceCellText :=
       match price product with
       | Some p => "$" +:+ toFixed2 p
       | None => "N/A"
       end;
     descriptionCellText :=
       orElse (description product) "No description available";
     descriptionCellTitle :=
       match description product with
       | Some d => if isEmptyString d then None else Some d
       | None => None
       end;
     categoryCellText := orElse (category product) "Uncategorized" |}.

(** The style and content that [TableRenderer] writes. *)
Record TableRenderer := {
  tableDisplay : string;
  tableBody : list TableRow;
  loadingDisplay : string;
  loadingHTML : string;
  noResultsDisplay : string
}.

(** [applyAlternatingRowStyles()], on the rows of the table body. *)
Definition applyAlternatingRowStyles (rows : list TableRow) : list TableRow :=
  imap (fun index row =>
          let cleared :=
            classListRemove ["table-row-light"; "table-row-dark"]
              (rowClassList row) in
          {| rowClassList :=
               if (Z.of_nat index mod 2 =? 0)
               then classListAdd "table-row-light" cleared
               else classListAdd "table-row-dark" cleared;
             imageCell := imageCell row;
             titleCellText := titleCellText row;
             priceCellText := priceCellText row;
             descriptionCellText := descriptionCellText row;
             descriptionCellTitle := descriptionCellTitle row;
             categoryCellText := categoryCellText row |}) rows.

(** [renderTable(products)] *)
Definition renderTable (this : TableRenderer) (products : list Product)
  : TableRenderer :=
  match products with
  | [] =>
      {| tableDisplay := "none"; tableBody := [];
         loadingDisplay := "none"; loadingHTML := loadingHTML this;
         noResultsDisplay := "block" |}
  | _ :: _ =>
      {| tableDisplay := "table";
         tableBody :=
           applyAlternatingRowStyles
             (imap (fun index product => renderRow product index) products);
         loadingDisplay := "none"; loadingHTML := loadingHTML this;
         noResultsDisplay := "none" |}
  end.

(** [showLoading()] *)
Definition showLoading (this : TableRenderer) : TableRenderer :=
  {| tableDisplay := "none"; tableBody := tableBody this;
     loadingDisplay := "block"; loadingHTML := loadingHTML this;
     noResultsDisplay := "none" |}.

(** [showError(message)] *)
Definition showError (this : TableRenderer) (message : string) : TableRenderer :=
  {| tableDisplay := "none"; tableBody := tableBody this;
     loadingDisplay := "block"; loadingHTML := errorMessageDiv message;
     noResultsDisplay := "none" |}.

(** ** The pagination controls *)

(** A child of the controls container; a page button keeps the page number
    its click handler passes to [goToPage]. *)
Inductive Control :=
| PrevButton (disabled : bool)
| PageButton (pageNumber : Z) (active : bool)
| EllipsisSpan
| NextButton (disabled : bool).

(** What [renderControls] writes. *)
Record PaginationView := {
  containerDisplay : string;
  infoText : string;
  controls : list Control
}.

(** [createPageButton(pageNumber)] *)
Definition createPageButton (this : PaginationController) (pageNumber : Z)
  : Control :=
  PageButton pageNumber (pageNumber =? currentPage this).

(** The first and the last page of the run of page buttons in
    [renderPageNumbers()]. *)
Definition visibleRange (this : PaginationController) : Z * Z :=
  let maxVisiblePages := 5 in
  let startPage := Z.max 1 (currentPage this - maxVisiblePages / 2) in
  let endPage := Z.min (totalPages this) (startPage + maxVisiblePages - 1) in
  let startPage :=
    if endPage - startPage + 1 <? maxVisiblePages
    then Z.max 1 (endPage - maxVisiblePages + 1)
    else startPage in
  (startPage, endPage).

(** [renderPageNumbers()]: the children it appends. *)
Definition renderPageNumbers (this : PaginationController) : list Control :=
  let '(startPage, endPage) := visibleRange this in
  (if startPage >? 1 then
     createPageButton this 1 ::
     (if startPage >? 2 then [EllipsisSpan] else [])
   else [])
  ++ map (createPageButton this) (seqZ startPage (endPage - startPage + 1))
  ++ (if endPage <? totalPages this then
        (if endPage <? totalPages this - 1 then [EllipsisSpan] else [])
        ++ [createPageButton this (totalPages this)]
      else []).

(** The first and the last item number in the info line. *)
Definition startItem (this : PaginationController) : Z :=
  (currentPage this - 1) * pageSize this + 1.

Definition endItem (this : PaginationController) : Z :=
  Z.min (currentPage this * pageSize this) (totalItems this).

(** [renderControls()] *)
Definition renderControls (this : PaginationController) (view : PaginationView)
  : PaginationView :=
  if (totalItems this =? 0) || (totalPages this <=? 1) then
    {| containerDisplay := "none"; infoText := infoText view;
       controls := controls view |}
  else
    {| containerDisplay := "flex";
       infoText :=
         "Hiển thị " +:+ numberToString (startItem this) +:+ "-"
           +:+ numberToString (endItem this) +:+ " của "
           +:+ numberToString (totalItems this) +:+ " sản phẩm (Trang "
           +:+ numberToString (currentPage this) +:+ "/"
           +:+ numberToString (totalPages this) +:+ ")";
       controls :=
         [PrevButton (currentPage this =? 1)]
         ++ renderPageNumbers this
         ++ [NextButton (currentPage this =? totalPages this)] |}.

(** ** The sort buttons *)

(** Whether the button carries the class [active], and its label. *)
Record SortButton := { buttonActive : bool; buttonText : string }.

Record SortButtons := { sortPriceBtn : SortButton; sortNameBtn : SortButton }.

(** [updateSortButtons()] *)
Definition updateSortButtons (this : SortController) : SortButtons :=
  let cs := currentSort this in
  let directionText := match direction cs with Asc => "↑" | Desc => "↓" end in
  if fieldIs (field cs) "price" then
    {| sortPriceBtn := {| buttonActive := true;
                          buttonText := "Sắp xếp theo giá " +:+ directionText |};
       sortNameBtn := {| buttonActive := false;
                         buttonText := "Sắp xếp theo tên" |} |}
  else if fieldIs (field cs) "title" then
    {| sortPriceBtn := {| buttonActive := false;
                          buttonText := "Sắp xếp theo giá" |};
       sortNameBtn := {| buttonActive := true;
                         buttonText := "Sắp xếp theo tên " +:+ directionText |} |}
  else
    {| sortPriceBtn := {| buttonActive := false;
                          buttonText := "Sắp xếp theo giá" |};
       sortNameBtn := {| buttonActive := false;
                         buttonText := "Sắp xếp theo tên" |} |}.

(** [clearSearch()] *)
Definition clearSearch (this : SearchFilter) : SearchFilter :=
  {| searchTerm := EmptyString |}.

(** ** The dashboard on the screen *)

(** The parts of the page the dashboard writes. *)
Record Screen := {
  errorContainer : string;
  tableRenderer : TableRenderer;
  paginationView : PaginationView
}.

Section WithHostScreen.
Context `{StringHost}.

(** What [updateDisplay()] writes to the page, [this] being the state it
    leaves: the table of the current page and the pagination controls. *)
Definition displayOn (this : DashboardController) (screen : Screen) : Screen :=
  {| errorContainer := errorContainer screen;
     tableRenderer :=
       renderTable (tableRenderer screen) (currentPageProducts this);
     paginationView :=
       renderControls (paginationController this) (paginationView screen) |}.

(** [init()], given what the fetch comes to. *)
Definition init (this : DashboardController) (screen : Screen)
    (outcome : FetchOutcome) : DashboardController * Screen :=
  let screen1 :=
    {| errorContainer := clearError;
       tableRenderer := showLoading (tableRenderer screen);
       paginationView := paginationView screen |} in
  match getAllProducts outcome (errorContainer screen1) with
  | (inr fetched, _) =>
      let this' :=
        applyFilters
          {| products := fetched; filteredProducts := filteredProducts this;
             currentPageProducts := currentPageProducts this;
             searchFilter := searchFilter this;
             paginationController := paginationController this;
             sortController := sortController this |} in
      (this', displayOn this' screen1)
  | (inl _, container) =>
      (this,
       {| errorContainer := container;
          tableRenderer :=
            showError (tableRenderer screen1)
              "Không thể tải dữ liệu sản phẩm. Vui lòng thử lại sau.";
          paginationView := paginationView screen1 |})
  end.

End WithHostScreen.

(** ** Vocabulary of the properties *)

(** [t] is the ceiling of [n / d]. *)
Definition isCeilingOf (t n d : Z) : Prop := (t - 1) * d < n <= t * d.

(** The page number [getPagedData] settles on. *)
Definition settledPage (currentPage totalPages : Z) : Z :=
  let cp := if (currentPage >? totalPages) && (totalPages >? 0)
            then totalPages else currentPage in
  if cp <? 1 then 1 else cp.

(** [t] occurs in [s]. *)
Definition isSubstring (t s : string) : Prop :=
  exists pre post, s = pre +:+ t +:+ post.

(** The order of the prices along a direction, a missing price being 0. *)
Definition priceOrdered (d : Direction) (a b : Product) : Prop :=
  match d with
  | Asc => priceOrZero a <= priceOrZero b
  | Desc => priceOrZero b <= priceOrZero a
  end.

(** The price a product carries, 0 for a product without a price. *)
Definition listedPrice (p : Product) : Z :=
  match price p with
  | Some v => v
  | None => 0
  end.

(** The first product may come before the second when the collection is
    in the order of the listed prices along the direction. *)
Definition inPriceOrder (d : Direction) (a b : Product) : Prop :=
  match d with
  | Asc => listedPrice a <= listedPrice b
  | Desc => listedPrice b <= listedPrice a
  end.

(** [toggleSort] called with each field of [fs] in turn. *)
Definition toggleAll (sc : SortController) (fs : list string) : SortController :=
  fold_left (fun s f => fst (toggleSort s f)) fs sc.

Definition sortedByPriceOrTitle (sc : SortController) : Prop :=
  field (currentSort sc) = Some "price" \/
  field (currentSort sc) = Some "title".

Section WithHostVocabulary.
Context `{StringHost}.

(** The product has a title that, in lower case, contains the term in
    lower case. *)
Definition titleContains (term : string) (p : Product) : Prop :=
  exists t, title p = Some t /\
            isSubstring (toLowerCase term) (toLowerCase t).

(** The stored collection is what filtering and sorting the products
    gives. *)
Definition upToDate (c : DashboardController) : Prop :=
  filteredProducts c = filterAndSort c.

End WithHostVocabulary.

(** The page numbers on the page buttons, in the order of the buttons. *)
Definition pageNumbers (cs : list Control) : list Z :=
  flat_map (fun c => match c with PageButton n _ => [n] | _ => [] end) cs.

(** The page numbers on the page buttons that are marked active. *)
Definition activePageNumbers (cs : list Control) : list Z :=
  flat_map (fun c => match c with PageButton n true => [n] | _ => [] end) cs.

(** The page on show once [goToPage(n)] has run and the display is
    updated. *)
Definition pageShownAt (pc : PaginationController) (data : list Product)
    (n : Z) : list Product :=
  snd (getPagedData (fst (goToPage pc n)) (JsArray data)).

(** The dashboard at rest: the page size is one of the three the page-size
    menu offers, the stored collection is an array, and the page on show
    and the pagination state are what [updateDisplay] leaves. *)
Definition atRest (c : DashboardController) : Prop :=
  In (pageSize (paginationController c)) validSizes /\
  isArray (filteredProducts c) = true /\
  updateDisplay c = c.

(** A comparator with its arguments exchanged. *)
Definition exchanged {A : Type} (compareFn : A -> A -> Z) : A -> A -> Z :=
  fun a b => compareFn b a.

(** ** An instance of the string operations on ASCII text *)

Module AsciiHost.

Definition lowerChar (c : ascii) : ascii :=
  let n := N_of_ascii c in
  if ((65 <=? n) && (n <=? 90))%N then ascii_of_N (n + 32) else c.

Fixpoint lower (s : string) : string :=
  match s with
  | EmptyString => EmptyString
  | String c s' => String (lowerChar c) (lower s')
  end.

Definition isSpace (c : ascii) : bool :=
  let n := N_of_ascii c in
  ((n =? 32) || ((9 <=? n) && (n <=? 13)))%N.

Fixpoint trimStart (s : string) : string :=
  match s with
  | EmptyString => EmptyString
  | String c s' => if isSpace c then trimStart s' else s
  end.

Fixpoint trimEnd (s : string) : string :=
  match s with
  | EmptyString => EmptyString
  | String c s' =>
      match trimEnd s' with
      | EmptyString => if isSpace c then EmptyString else String c EmptyString
      | t => String c t
      end
  end.

Definition trimAscii (s : string) : string := trimEnd (trimStart s).

(** Comparison by code unit, the first difference deciding. *)
Fixpoint compareUnits (a b : string) : Z :=
  match a, b with
  | EmptyString, EmptyString => 0
  | EmptyString, String _ _ => -1
  | String _ _, EmptyString => 1
  | String x a', String y b' =>
      let d := Z.of_N (N_of_ascii x) - Z.of_N (N_of_ascii y) in
      if d =? 0 then compareUnits a' b' else d
  end.

#[export] Instance host : StringHost.
Proof.
  refine {| toLowerCase := lower; trim := trimAscii;
            localeCompare := compareUnits |}.
  - reflexivity.
  - intros [|c s]; [reflexivity | discriminate].
  - intros a. induction a as [|x a IH]; intros [|y b]; simpl; try reflexivity.
    destruct (Z.eqb_spec (Z.of_N (N_of_ascii y) - Z.of_N (N_of_ascii x)) 0);
      destruct (Z.eqb_spec (Z.of_N (N_of_ascii x) - Z.of_N (N_of_ascii y)) 0);
      try lia.
    apply IH.
  - intros a. induction a as [|x a IH]; intros [|y b] [|z c]; simpl; try lia.
    destruct (Z.eqb_spec (Z.of_N (N_of_ascii x) - Z.of_N (N_of_ascii y)) 0);
      destruct (Z.eqb_spec (Z.of_N (N_of_ascii y) - Z.of_N (N_of_ascii z)) 0);
      destruct (Z.eqb_spec (Z.of_N (N_of_ascii x) - Z.of_N (N_of_ascii z)) 0);
      try lia.
    apply IH.
Defined.

End AsciiHost.

(** ** Sample data *)

Module Samples.

Definition item (n : Z) (name : string) (cost : option Z) : Product :=
  {| id := n; title := Some name; price := cost; description := None;
     category := None; images := [] |}.

Definition untitled (n : Z) (cost : option Z) : Product :=
  {| id := n; title := None; price := cost; description := None;
     category := None; images := [] |}.

(** A catalog of 23 products, numbered from 0. *)
Definition catalog23 : list Product :=
  map (fun n => item (Z.of_nat n) "Item" (Some (Z.of_nat n))) (seq 0 23).

(** The pagination state on page 3 of 3, ten items a page. *)
Definition onPage3 : PaginationController :=
  {| currentPage := 3; pageSize := 10; totalItems := 23; totalPages := 3 |}.

Definition shirtUpper : Product := item 1 "Shirt" (Some 20).
Definition shirtLower : Product := item 2 "shirt" (Some 20).
Definition hat : Product := item 3 "Hat" None.
Definition sock : Product := item 4 "sock" (Some 5).

Definition wardrobe : list Product := [shirtUpper; sock; hat; shirtLower].

(** A search filter whose input holds "hat". *)
Definition searchingHat : SearchFilter := {| searchTerm := "hat" |}.

(** A store with the wardrobe at location 1. *)
Definition wardrobeStore : Store := {[ 1%positive := wardrobe ]}.

(** The catalog arrives and the user sorts by price. *)
Definition loadedAndSorted : DashboardController :=
  run (H := AsciiHost.host) [FetchResolved (Some catalog23); SortPriceClick].

(** The catalog arrives, the user goes to page 3 and then searches for a
    word that no title contains. *)
Definition searchedOnPage3 : DashboardController :=
  run (H := AsciiHost.host)
    [FetchResolved (Some catalog23); PageButtonClick 3; SearchInput " zzz "].

End Samples.

(** ** More sample data *)

Module Scenes.

(** Page 5 of 10, ten items a page. *)
Definition onPage5of10 : PaginationController :=
  {| currentPage := 5; pageSize := 10; totalItems := 100; totalPages := 10 |}.

(** A response with status 503. *)
Definition unavailable : Response :=
  {| ok := false; status := 503; json := inr JsNull |}.

(** The wardrobe by rising price, the two shirts in their order. *)
Definition wardrobeByPrice : list Product :=
  [Samples.hat; Samples.sock; Samples.shirtUpper; Samples.shirtLower].

(** The catalog has arrived. *)
Definition catalogArrives : list UIEvent :=
  [FetchResolved (Some Samples.catalog23)].

(** The wardrobe has arrived and the user has clicked on the price
    button. *)
Definition wardrobeSortedByPrice : list UIEvent :=
  [FetchResolved (Some Samples.wardrobe); SortPriceClick].

(** The dashboard once the catalog has arrived, and what an event makes of
    a state, on ASCII text. *)
Definition loaded : DashboardController :=
  run (H := AsciiHost.host) catalogArrives.

Definition step (c : DashboardController) (ev : UIEvent) : DashboardController :=
  handle (H := AsciiHost.host) c ev.

End Scenes.

(** * Properties *)

(** ** The stable sort *)

Section SortFacts.
Context {A : Type} (compareFn : A -> A -> Z).

Lemma insertSorted_length x l :
  length (insertSorted compareFn x l) = S (length l).
Proof.
  induction l as [|y ys IH]; simpl; [reflexivity|].
  destruct (compareFn x y <=? 0); simpl; [reflexivity | now rewrite IH].
Qed.

Lemma sortWith_length l : length (sortWith compareFn l) = length l.
Proof.
  induction l as [|x xs IH]; simpl; [reflexivity|].
  now rewrite insertSorted_length, IH.
Qed.

Lemma insertSorted_perm x l : Permutation (x :: l) (insertSorted compareFn x l).
Proof.
  induction l as [|y ys IH]; simpl; [reflexivity|].
  destruct (compareFn x y <=? 0); [reflexivity|].
  rewrite perm_swap. now apply perm_skip.
Qed.

Lemma sortWith_perm l : Permutation l (sortWith compareFn l).
Proof.
  induction l as [|x xs IH]; simpl; [reflexivity|].
  rewrite <- insertSorted_perm. now apply perm_skip.
Qed.

(** An element that is not a tie of [x] does not show in the ties of [x]. *)
Lemma insertSorted_filter_other x a l :
  tie compareFn x a = false ->
  List.filter (tie compareFn x) (insertSorted compareFn a l) = List.filter (tie compareFn x) l.
Proof.
  intros Ha. induction l as [|y ys IH]; simpl.
  - now rewrite Ha.
  - destruct (compareFn a y <=? 0); simpl.
    + now rewrite Ha.
    + now rewrite IH.
Qed.

Hypothesis consistent : ConsistentComparator compareFn.

Lemma compare_refl x : compareFn x x = 0.
Proof. pose proof (cmp_antisym _ consistent x x). lia. Qed.

Lemma compare_flip x y : compareFn x y > 0 -> compareFn y x <= 0.
Proof. intros Hgt. pose proof (cmp_antisym _ consistent x y). lia. Qed.

Lemma tie_sym x y : tie compareFn x y = true -> tie compareFn y x = true.
Proof.
  unfold tie. rewrite !Z.eqb_eq. intros Hxy.
  pose proof (cmp_antisym _ consistent x y). lia.
Qed.

(** A tie of [x] is overtaken by nothing that [x] is a tie of. *)
Lemma tie_not_overtaken x a y :
  tie compareFn x a = true -> compareFn a y > 0 -> tie compareFn x y = false.
Proof.
  intros Hxa Hay. destruct (tie compareFn x y) eqn:Hxy; [|reflexivity].
  apply tie_sym in Hxa. unfold tie in *. rewrite Z.eqb_eq in *.
  assert (compareFn a y <= 0) by (apply (cmp_trans _ consistent a x y); lia).
  lia.
Qed.

(** A tie of [x] is inserted in front of the ties of [x] already there. *)
Lemma insertSorted_filter_tie x a l :
  tie compareFn x a = true ->
  List.filter (tie compareFn x) (insertSorted compareFn a l) = a :: List.filter (tie compareFn x) l.
Proof.
  intros Ha. induction l as [|y ys IH]; simpl.
  - now rewrite Ha.
  - destruct (Z.leb_spec (compareFn a y) 0) as [Hle|Hgt]; simpl.
    + now rewrite Ha.
    + rewrite (tie_not_overtaken x a y Ha) by lia. exact IH.
Qed.

(** Stability: the ties of any element come out in the order they went in. *)
Lemma sortWith_stable x l :
  List.filter (tie compareFn x) (sortWith compareFn l) = List.filter (tie compareFn x) l.
Proof.
  induction l as [|a l IH]; simpl; [reflexivity|].
  destruct (tie compareFn x a) eqn:Ha.
  - rewrite insertSorted_filter_tie by exact Ha. now rewrite IH.
  - rewrite insertSorted_filter_other by exact Ha. exact IH.
Qed.

Lemma insertSorted_sorted x l :
  StronglySorted (inOrder compareFn) l ->
  StronglySorted (inOrder compareFn) (insertSorted compareFn x l).
Proof.
  induction 1 as [|y ys Hs IH Hall]; simpl.
  - repeat constructor.
  - destruct (Z.leb_spec (compareFn x y) 0) as [Hle|Hgt].
    + constructor; [now constructor|].
      constructor; [exact Hle|].
      eapply Forall_impl; [exact Hall|].
      intros z Hyz. exact (cmp_trans _ consistent x y z Hle Hyz).
    + constructor; [exact IH|].
      eapply Permutation_Forall; [apply insertSorted_perm|].
      constructor; [|exact Hall].
      apply compare_flip. lia.
Qed.

Lemma sortWith_sorted l : StronglySorted (inOrder compareFn) (sortWith compareFn l).
Proof.
  induction l as [|x xs IH]; simpl; [constructor|].
  now apply insertSorted_sorted.
Qed.

(** Two ties in a row stay as they are. *)
Lemma sortWith_tied_pair a b :
  tie compareFn a b = true -> sortWith compareFn [a; b] = [a; b].
Proof.
  unfold tie. rewrite Z.eqb_eq. intros Hab. simpl.
  destruct (Z.leb_spec (compareFn a b) 0); [reflexivity | lia].
Qed.

End SortFacts.

(** ** Pagination *)

Lemma ceilDiv_spec n d : 0 < d -> isCeilingOf (ceilDiv n d) n d.
Proof.
  intros Hd. unfold isCeilingOf, ceilDiv.
  pose proof (Z.div_mod (- n) d ltac:(lia)) as Hdm.
  pose proof (Z.mod_pos_bound (- n) d Hd) as Hr.
  nia.
Qed.

Lemma ceilDiv_nonneg n d : 0 < d -> 0 <= n -> 0 <= ceilDiv n d.
Proof. intros Hd Hn. pose proof (ceilDiv_spec n d Hd) as Hc. unfold isCeilingOf in Hc. nia. Qed.

Lemma ceilDiv_zero_iff n d : 0 < d -> 0 <= n -> (ceilDiv n d = 0 <-> n = 0).
Proof.
  intros Hd Hn. pose proof (ceilDiv_spec n d Hd) as Hc.
  unfold isCeilingOf in Hc. split; intros; nia.
Qed.

(** A slice that starts at a non-negative index. *)
Lemma slice_from {A : Type} (data : list A) (s n : Z) :
  0 <= s -> 0 <= n ->
  slice data s (s + n) = take (Z.to_nat n) (drop (Z.to_nat s) data).
Proof.
  intros Hs Hn. unfold slice, relativeIndex.
  destruct (Z.ltb_spec s 0); [lia|].
  destruct (Z.ltb_spec (s + n) 0); [lia|].
  destruct (Z_lt_le_dec s (Z.of_nat (length data))) as [Hin|Hout].
  - rewrite (Z.min_l s) by lia.
    destruct (Z_le_gt_dec (s + n) (Z.of_nat (length data))).
    + rewrite Z.min_l by lia. f_equal. lia.
    + rewrite Z.min_r by lia.
      rewrite !take_ge; [reflexivity | |]; rewrite length_drop; lia.
  - rewrite !drop_ge by lia. now rewrite !take_nil.
Qed.

Lemma getPagedData_array pc data :
  getPagedData pc (JsArray data) =
  let tp := ceilDiv (Z.of_nat (length data)) (pageSize pc) in
  let cp := settledPage (currentPage pc) tp in
  ({| currentPage := cp; pageSize := pageSize pc;
      totalItems := Z.of_nat (length data); totalPages := tp |},
   slice data ((cp - 1) * pageSize pc) ((cp - 1) * pageSize pc + pageSize pc)).
Proof. reflexivity. Qed.

Lemma settledPage_ge_1 cp tp : 1 <= settledPage cp tp.
Proof.
  unfold settledPage.
  destruct ((cp >? tp) && (tp >? 0)); [destruct (Z.ltb_spec tp 1)|
                                        destruct (Z.ltb_spec cp 1)]; lia.
Qed.

Lemma settledPage_le cp tp : 0 < tp -> settledPage cp tp <= tp.
Proof.
  intros Htp. unfold settledPage.
  destruct (Z.gtb_spec cp tp); destruct (Z.gtb_spec tp 0); simpl;
    try lia;
    match goal with |- context [?a <? 1] => destruct (Z.ltb_spec a 1) end; lia.
Qed.

Lemma settledPage_in_range cp tp : 1 <= cp <= tp -> settledPage cp tp = cp.
Proof.
  intros Hr. unfold settledPage.
  destruct (Z.gtb_spec cp tp); [lia|]. simpl.
  destruct (Z.ltb_spec cp 1); lia.
Qed.

Lemma settledPage_no_pages cp : settledPage cp 0 = Z.max cp 1.
Proof.
  unfold settledPage. rewrite andb_false_r.
  destruct (Z.ltb_spec cp 1); lia.
Qed.

(** C6. [getPagedData] on an array sets [totalItems] to the length of the
    array and [totalPages] to the ceiling of [totalItems / pageSize], and
    returns the elements at the indices from [(currentPage-1)*pageSize]
    (included) to [currentPage*pageSize] (excluded), [currentPage] being
    the page it has settled on.  With 23 items and pages of 10, there are
    3 pages, page 1 is the items 0 to 9 and page 3 the three items 20 to
    22. *)
Theorem getPagedData_totals_and_slice (pc : PaginationController)
    (data : list Product) :
  0 < pageSize pc ->
  let pc' := fst (getPagedData pc (JsArray data)) in
  let page := snd (getPagedData pc (JsArray data)) in
  let startIndex := (currentPage pc' - 1) * pageSize pc in
  totalItems pc' = Z.of_nat (length data) /\
  pageSize pc' = pageSize pc /\
  totalPages pc' = ceilDiv (totalItems pc') (pageSize pc') /\
  isCeilingOf (totalPages pc') (totalItems pc') (pageSize pc') /\
  page = take (Z.to_nat (pageSize pc)) (drop (Z.to_nat startIndex) data) /\
  (forall i : nat,
      page !! i =
      if Z.of_nat i <? pageSize pc then data !! (Z.to_nat startIndex + i)%nat
      else None) /\
  (length data = 23%nat -> pageSize pc = 10 ->
   totalPages pc' = 3 /\
   (currentPage pc = 1 -> page = take 10 data /\ length page = 10%nat) /\
   (currentPage pc = 3 -> page = drop 20 data /\ length page = 3%nat)).
Proof.
  intros Hps. rewrite getPagedData_array. cbn zeta.
  set (tp := ceilDiv (Z.of_nat (length data)) (pageSize pc)).
  set (cp := settledPage (currentPage pc) tp).
  cbn [fst snd currentPage pageSize totalItems totalPages].
  pose proof (settledPage_ge_1 (currentPage pc) tp) as Hcp. fold cp in Hcp.
  assert (Hslice : slice data ((cp - 1) * pageSize pc)
                     ((cp - 1) * pageSize pc + pageSize pc) =
                   take (Z.to_nat (pageSize pc))
                     (drop (Z.to_nat ((cp - 1) * pageSize pc)) data))
    by (apply slice_from; nia).
  rewrite Hslice.
  split; [reflexivity|]. split; [reflexivity|]. split; [reflexivity|].
  split; [now apply ceilDiv_spec|]. split; [reflexivity|]. split.
  - intros i. destruct (Z.ltb_spec (Z.of_nat i) (pageSize pc)).
    + rewrite lookup_take_lt by lia. now rewrite lookup_drop.
    + apply lookup_take_ge. lia.
  - intros Hlen Hten.
    assert (Htp : tp = 3) by (subst tp; rewrite Hlen, Hten; reflexivity).
    split; [exact Htp|]. split; intros Hcur.
    + assert (cp = 1) as -> by (subst cp; rewrite Hcur, Htp; reflexivity).
      rewrite Hten.
      change (Z.to_nat ((1 - 1) * 10)) with 0%nat.
      change (Z.to_nat 10) with 10%nat.
      rewrite drop_0. split; [reflexivity|].
      rewrite length_take, Hlen. reflexivity.
    + assert (cp = 3) as -> by (subst cp; rewrite Hcur, Htp; reflexivity).
      rewrite Hten.
      change (Z.to_nat ((3 - 1) * 10)) with 20%nat.
      change (Z.to_nat 10) with 10%nat.
      rewrite take_ge by (rewrite length_drop, Hlen; simpl; lia).
      split; [reflexivity|]. rewrite length_drop, Hlen. reflexivity.
Qed.

(** Page 3 of the sample catalog is its last three products. *)
Lemma getPagedData_totals_and_slice_witness :
  0 < pageSize Samples.onPage3 /\
  snd (getPagedData Samples.onPage3 (JsArray Samples.catalog23)) =
  drop 20 Samples.catalog23.
Proof.
  assert (Hps : 0 < pageSize Samples.onPage3) by reflexivity.
  split; [exact Hps|].
  destruct (getPagedData_totals_and_slice Samples.onPage3 Samples.catalog23 Hps)
    as (_ & _ & _ & _ & _ & _ & H23).
  destruct (H23 eq_refl eq_refl) as (_ & _ & Hp3).
  exact (proj1 (Hp3 eq_refl)).
Defined.

(** C2, as stated, fails: on the empty collection there are no pages, and a
    current page of 3 stays 3, above [max(totalPages, 1) = 1]. *)
Lemma getPagedData_empty_keeps_high_page :
  let pc' := fst (getPagedData Samples.onPage3 (JsArray [])) in
  currentPage pc' = 3 /\ totalPages pc' = 0 /\
  ~ (1 <= currentPage pc' <= Z.max (totalPages pc') 1).
Proof.
  cbv zeta. split; [reflexivity|]. split; [reflexivity|].
  vm_compute. intros [_ Hle]. apply Hle. reflexivity.
Qed.

(** C2, amended. After [getPagedData] on an array, [currentPage] is at least
    1; on a non-empty array it is at most [totalPages]: a page number in
    range is kept, one above the last page becomes the last page, one
    below 1 becomes 1.  On the empty array [totalPages] is 0 and
    [currentPage] is only raised to 1 when it was below: a page number
    above 1 is kept. *)
Theorem getPagedData_page_range (pc : PaginationController)
    (data : list Product) :
  0 < pageSize pc ->
  let pc' := fst (getPagedData pc (JsArray data)) in
  1 <= currentPage pc' /\
  (data <> [] -> currentPage pc' <= totalPages pc') /\
  (1 <= currentPage pc <= totalPages pc' -> currentPage pc' = currentPage pc) /\
  (data <> [] -> totalPages pc' < currentPage pc ->
   currentPage pc' = totalPages pc') /\
  (currentPage pc < 1 -> currentPage pc' = 1) /\
  (data = [] ->
   totalPages pc' = 0 /\ currentPage pc' = Z.max (currentPage pc) 1).
Proof.
  intros Hps. rewrite getPagedData_array. cbn zeta.
  cbn [fst currentPage totalPages].
  set (tp := ceilDiv (Z.of_nat (length data)) (pageSize pc)).
  assert (Htp0 : 0 <= tp) by (apply ceilDiv_nonneg; lia).
  assert (Hne : data <> [] -> 0 < tp).
  { intros Hd. destruct (Z.eq_dec tp 0) as [Hz|]; [|lia].
    apply ceilDiv_zero_iff in Hz; [|lia|lia].
    destruct data; [congruence | simpl in Hz; lia]. }
  split; [apply settledPage_ge_1|].
  split; [intros Hd; apply settledPage_le; auto|].
  split; [apply settledPage_in_range|].
  split.
  - intros Hd Hgt. specialize (Hne Hd). unfold settledPage.
    destruct (Z.gtb_spec (currentPage pc) tp); [|lia].
    destruct (Z.gtb_spec tp 0); [|lia]. simpl.
    destruct (Z.ltb_spec tp 1); lia.
  - split.
    + intros Hlt. unfold settledPage.
      destruct (Z.gtb_spec (currentPage pc) tp); [lia|]. simpl.
      destruct (Z.ltb_spec (currentPage pc) 1); lia.
    + intros ->. assert (tp = 0) as -> by (subst tp; apply ceilDiv_zero_iff; simpl; lia).
      split; [reflexivity | apply settledPage_no_pages].
Qed.

(** On the sample catalog the page number stays at least 1. *)
Lemma getPagedData_page_range_witness :
  0 < pageSize Samples.onPage3 /\
  1 <= currentPage (fst (getPagedData Samples.onPage3 (JsArray Samples.catalog23))).
Proof.
  assert (Hps : 0 < pageSize Samples.onPage3) by reflexivity.
  split; [exact Hps|].
  exact (proj1 (getPagedData_page_range Samples.onPage3 Samples.catalog23 Hps)).
Defined.

Lemma goToPage_out_of_range pc n :
  n < 1 \/ totalPages pc < n -> goToPage pc n = (pc, false).
Proof.
  intros Hn. unfold goToPage.
  destruct (Z.ltb_spec n 1); destruct (Z.gtb_spec n (totalPages pc));
    simpl; try reflexivity; lia.
Qed.

Lemma goToPage_in_range pc n :
  1 <= n <= totalPages pc ->
  goToPage pc n =
  ({| currentPage := n; pageSize := pageSize pc;
      totalItems := totalItems pc; totalPages := totalPages pc |}, true).
Proof.
  intros Hn. unfold goToPage.
  destruct (Z.ltb_spec n 1); destruct (Z.gtb_spec n (totalPages pc));
    simpl; try reflexivity; lia.
Qed.

Lemma changePageSize_invalid pc size :
  size <> 5 -> size <> 10 -> size <> 20 -> changePageSize pc size = (pc, false).
Proof.
  intros H5 H10 H20. unfold changePageSize, arrayIncludes. simpl.
  destruct (Z.eqb_spec size 5); [lia|].
  destruct (Z.eqb_spec size 10); [lia|].
  destruct (Z.eqb_spec size 20); [lia|]. reflexivity.
Qed.

Lemma changePageSize_valid pc size :
  size = 5 \/ size = 10 \/ size = 20 ->
  changePageSize pc size =
  ({| currentPage := 1; pageSize := size;
      totalItems := totalItems pc; totalPages := totalPages pc |}, true).
Proof. intros [->|[->| ->]]; reflexivity. Qed.

(** C7. [goToPage(n)] with [n] below 1 or above [totalPages] (so [n = 0]
    and [n = totalPages + 1]) changes nothing and calls no page-change
    callback; with [n] in range it sets [currentPage] to [n].
    [changePageSize(size)] with a size other than 5, 10 and 20 changes
    nothing; with one of them it sets [pageSize] and puts [currentPage]
    back to 1. *)
Theorem goToPage_changePageSize_guards (pc : PaginationController) :
  (forall n, n < 1 \/ totalPages pc < n -> goToPage pc n = (pc, false)) /\
  goToPage pc 0 = (pc, false) /\
  goToPage pc (totalPages pc + 1) = (pc, false) /\
  (forall n, 1 <= n <= totalPages pc ->
     goToPage pc n =
     ({| currentPage := n; pageSize := pageSize pc;
         totalItems := totalItems pc; totalPages := totalPages pc |}, true)) /\
  (forall size, size <> 5 -> size <> 10 -> size <> 20 ->
     changePageSize pc size = (pc, false)) /\
  (forall size, size = 5 \/ size = 10 \/ size = 20 ->
     changePageSize pc size =
     ({| currentPage := 1; pageSize := size;
         totalItems := totalItems pc; totalPages := totalPages pc |}, true)).
Proof.
  split; [apply goToPage_out_of_range|].
  split; [apply goToPage_out_of_range; lia|].
  split; [apply goToPage_out_of_range; lia|].
  split; [apply goToPage_in_range|].
  split; [apply changePageSize_invalid | apply changePageSize_valid].
Qed.

(** ** Substrings *)

Lemma append_String c s t : String c s +:+ t = String c (s +:+ t).
Proof. reflexivity. Qed.

Lemma prefix_spec t : forall s,
  String.prefix t s = true <-> exists post, s = t +:+ post.
Proof.
  induction t as [|a t IH]; intros s; simpl.
  - destruct s; split; eauto.
  - destruct s as [|b s]; simpl.
    + split; [discriminate | intros [post Hp]; discriminate].
    + destruct (Ascii.ascii_dec a b) as [->|Hne].
      * rewrite IH. split; intros [post Hp]; exists post;
          rewrite append_String in *; congruence.
      * split; [discriminate|].
        intros [post Hp]. rewrite append_String in Hp. congruence.
Qed.

Lemma includes_spec s : forall t, includes s t = true <-> isSubstring t s.
Proof.
  induction s as [|c s IH]; intros t.
  - change (includes EmptyString t) with (String.prefix t EmptyString || false).
    rewrite orb_false_r, prefix_spec. split.
    + intros [post Hp]. now exists EmptyString, post.
    + intros ([|? pre] & post & Hp); [eauto | discriminate].
  - change (includes (String c s) t)
      with (String.prefix t (String c s) || includes s t).
    rewrite orb_true_iff, prefix_spec, IH. split.
    + intros [[post Hp]|(pre & post & Hp)].
      * now exists EmptyString, post.
      * exists (String c pre), post. rewrite append_String. now rewrite Hp.
    + intros ([|c' pre] & post & Hp).
      * left. eauto.
      * right. exists pre, post. rewrite append_String in Hp. congruence.
Qed.

Lemma isSubstring_of_empty t : isSubstring t EmptyString -> t = EmptyString.
Proof.
  intros ([|? pre] & post & Hp); [|discriminate].
  destruct t; [reflexivity | discriminate].
Qed.

Lemma isEmptyString_true s : isEmptyString s = true <-> s = EmptyString.
Proof. destruct s; simpl; split; congruence. Qed.

Lemma isEmptyString_false s : isEmptyString s = false <-> s <> EmptyString.
Proof. destruct s; simpl; split; congruence. Qed.

Lemma filter_bool_sublist {A : Type} (f : A -> bool) (l : list A) :
  sublist (List.filter f l) l.
Proof.
  induction l as [|x l IH]; simpl; [constructor|].
  destruct (f x); now constructor.
Qed.

Lemma notACollection_isArray v : notACollection v = negb (isArray v).
Proof.
  destruct v; unfold notACollection; simpl; rewrite ?orb_true_r; reflexivity.
Qed.

(** ** Filtering, sorting and the missing collection *)

Section HostFacts.
Context `{StringHost}.

Lemma titleMatches_spec term p :
  term <> EmptyString ->
  titleMatches (toLowerCase term) p = true <-> titleContains term p.
Proof.
  intros Hterm. unfold titleMatches, titleContains.
  destruct (title p) as [t|].
  - destruct (isEmptyString t) eqn:Ht.
    + apply isEmptyString_true in Ht. subst t. split; [discriminate|].
      intros (t & [= <-] & Hsub). rewrite toLowerCase_empty in Hsub.
      apply isSubstring_of_empty, toLowerCase_nonempty in Hsub. contradiction.
    + rewrite includes_spec. split.
      * intros Hsub. now exists t.
      * now intros (t' & [= <-] & Hsub).
  - split; [discriminate | intros (t & Ht & _); discriminate].
Qed.

Lemma filter_nonempty_term sf ps term :
  term <> EmptyString ->
  filter sf (JsArray ps) (TermString term) =
  List.filter (titleMatches (toLowerCase term)) ps.
Proof.
  intros Hterm. unfold filter. simpl.
  apply isEmptyString_false in Hterm. now rewrite Hterm.
Qed.

(** C3, amended. With the empty term, with [null], or with no term while
    the stored search term is empty, [filter] returns the collection as it
    is; with no term it filters by the stored search term.  With a
    non-empty term it returns exactly the products whose title, in lower
    case, contains the term in lower case, so none without a title, in
    their original order. *)
Theorem filter_keeps_matching_titles (sf : SearchFilter) (ps : list Product) :
  filter sf (JsArray ps) (TermString EmptyString) = ps /\
  filter sf (JsArray ps) TermNull = ps /\
  (searchTerm sf = EmptyString -> filter sf (JsArray ps) TermUndefined = ps) /\
  filter sf (JsArray ps) TermUndefined =
    filter sf (JsArray ps) (TermString (searchTerm sf)) /\
  forall term, term <> EmptyString ->
    let kept := filter sf (JsArray ps) (TermString term) in
    (forall p, In p kept <-> In p ps /\ titleContains term p) /\
    (forall p, title p = None -> ~ In p kept) /\
    sublist kept ps /\
    (forall keep : Product -> bool,
        (forall p, keep p = true <-> titleContains term p) ->
        kept = List.filter keep ps).
Proof.
  split; [reflexivity|]. split; [reflexivity|].
  split; [intros Hs; unfold filter; simpl; now rewrite Hs|].
  split; [reflexivity|].
  intros term Hterm. cbn zeta. rewrite filter_nonempty_term by exact Hterm.
  split; [|split; [|split]].
  - intros p. rewrite filter_In, titleMatches_spec by exact Hterm. reflexivity.
  - intros p Hnone Hin. apply filter_In in Hin as [_ Hm].
    apply titleMatches_spec in Hm as (t & Ht & _); congruence.
  - apply filter_bool_sublist.
  - intros keep Hkeep. apply List.filter_ext. intros p.
    apply eq_true_iff_eq. now rewrite Hkeep, titleMatches_spec.
Qed.

(** C8, amended. Given a value that is not an array, [filter],
    [sortByPrice], [sortByName] and [getPagedData] return the empty array
    (and [getPagedData] leaves the pagination state alone); [applySorting]
    returns the empty array when the sort field is price or title, and
    returns its argument itself when no sort field is set. *)
Theorem not_an_array_gives_empty (v : JsValue) (sf : SearchFilter)
    (term : JsTerm) (d : Direction) (pc : PaginationController)
    (sc : SortController) :
  isArray v = false ->
  filter sf v term = [] /\
  sortByPrice v d = [] /\
  sortByName v d = [] /\
  getPagedData pc v = (pc, []) /\
  (field (currentSort sc) = Some "price" \/
   field (currentSort sc) = Some "title" ->
   applySorting sc v = JsArray []) /\
  (field (currentSort sc) = None -> applySorting sc v = v).
Proof.
  intros Hv.
  assert (Hn : notACollection v = true)
    by (rewrite notACollection_isArray, Hv; reflexivity).
  unfold filter, sortByPrice, sortByName, getPagedData, applySorting.
  rewrite Hn. repeat split.
  - intros [-> | ->]; simpl; unfold sortByPrice, sortByName; now rewrite Hn.
  - now intros ->.
Qed.

(** ** The sort state *)

Lemma toggleSort_field sc f : field (currentSort (fst (toggleSort sc f))) = Some f.
Proof.
  unfold toggleSort, fieldIs. simpl.
  destruct (field (currentSort sc)) as [s|]; [|reflexivity].
  destruct (String.eqb_spec s f); simpl; congruence.
Qed.

Lemma toggleAll_snoc sc fs f :
  toggleAll sc (fs ++ [f]) = fst (toggleSort (toggleAll sc fs) f).
Proof. unfold toggleAll. now rewrite fold_left_app. Qed.

Lemma handle_keeps_sort_field c ev :
  sortedByPriceOrTitle (sortController c) ->
  sortedByPriceOrTitle (sortController (handle c ev)).
Proof.
  intros Hc. unfold sortedByPriceOrTitle.
  destruct ev as [value| | |n| | |size|[fetched|]]; simpl;
    unfold notify, invoke, applyFilters, updateDisplay, withPagination;
    repeat match goal with
      | |- context [getPagedData ?p ?d] => destruct (getPagedData p d)
      | |- context [goToPage ?p ?n] => destruct (goToPage p n) as [? []]
      | |- context [changePageSize ?p ?n] =>
          destruct (changePageSize p n) as [? []]
      | |- context [if ?b then _ else _] => destruct b
      end; simpl; try exact Hc;
    rewrite ?toggleSort_field; auto;
    match goal with
    | |- context [fieldIs ?f ?s] =>
        pose proof (toggleSort_field (sortController c) s) as Ht;
        unfold toggleSort in Ht; simpl in Ht; rewrite Ht; auto
    end.
Qed.

End HostFacts.

(** ** Sorting by price *)

Lemma StronglySorted_weaken {A : Type} (R R' : A -> A -> Prop) (l : list A) :
  (forall a b, R a b -> R' a b) ->
  StronglySorted R l -> StronglySorted R' l.
Proof.
  intros HR. induction 1 as [|x xs Hs IH Hall]; constructor; [exact IH|].
  eapply Forall_impl; [exact Hall | apply HR].
Qed.

Lemma priceCompare_consistent d : ConsistentComparator (priceCompare d).
Proof. split; intros; unfold priceCompare in *; destruct d; lia. Qed.

Lemma priceOrZero_some k p : price p = Some k -> priceOrZero p = k.
Proof.
  unfold priceOrZero. intros ->. destruct (Z.eqb_spec k 0); congruence.
Qed.

Lemma priceOrZero_none p : price p = None -> priceOrZero p = 0.
Proof. unfold priceOrZero. now intros ->. Qed.

Lemma tie_priceCompare d x p :
  tie (priceCompare d) x p = (priceOrZero p =? priceOrZero x).
Proof.
  unfold tie, priceCompare.
  destruct d;
    destruct (Z.eqb_spec (priceOrZero p) (priceOrZero x));
    match goal with |- (?e =? 0) = _ => destruct (Z.eqb_spec e 0) end;
    try reflexivity; lia.
Qed.

Lemma sortByPrice_array ps d :
  sortByPrice (JsArray ps) d = sortWith (priceCompare d) ps.
Proof. reflexivity. Qed.

Lemma sortByPrice_sorted ps d :
  StronglySorted (priceOrdered d) (sortByPrice (JsArray ps) d).
Proof.
  rewrite sortByPrice_array.
  pose proof (sortWith_sorted _ (priceCompare_consistent d) ps) as Hs.
  eapply StronglySorted_weaken; [|exact Hs].
  intros a b. unfold inOrder, priceCompare, priceOrdered. destruct d; lia.
Qed.

Lemma sortByPrice_stable ps d k :
  List.filter (fun p => priceOrZero p =? k) (sortByPrice (JsArray ps) d) =
  List.filter (fun p => priceOrZero p =? k) ps.
Proof.
  rewrite sortByPrice_array.
  set (x := Samples.untitled 0 (Some k)).
  assert (Hx : priceOrZero x = k) by now apply priceOrZero_some.
  rewrite !(List.filter_ext (fun p => priceOrZero p =? k)
              (tie (priceCompare d) x))
    by (intros p; now rewrite tie_priceCompare, Hx).
  apply sortWith_stable, priceCompare_consistent.
Qed.

(** The key of the comparator is the listed price. *)
Lemma priceOrZero_listedPrice p : priceOrZero p = listedPrice p.
Proof.
  unfold priceOrZero, listedPrice. destruct (price p) as [v|]; [|reflexivity].
  destruct (Z.eqb_spec v 0); congruence.
Qed.

Lemma sortByPrice_in_price_order ps d :
  StronglySorted (inPriceOrder d) (sortByPrice (JsArray ps) d).
Proof.
  eapply StronglySorted_weaken; [|apply sortByPrice_sorted].
  intros a b. unfold priceOrdered, inPriceOrder.
  now rewrite !priceOrZero_listedPrice.
Qed.

Lemma sortByPrice_keeps_listed_ties ps d k :
  List.filter (fun p => listedPrice p =? k) (sortByPrice (JsArray ps) d) =
  List.filter (fun p => listedPrice p =? k) ps.
Proof.
  rewrite !(List.filter_ext (fun p => listedPrice p =? k)
              (fun p => priceOrZero p =? k))
    by (intros p; now rewrite priceOrZero_listedPrice).
  apply sortByPrice_stable.
Qed.

Lemma sortByPriceRef_array (σ : Store) l ps d :
  σ !! l = Some ps ->
  sortByPriceRef σ (RefArray l) d =
  (<[fresh (dom σ) := sortByPrice (JsArray ps) d]> σ, fresh (dom σ)).
Proof.
  intros Hl. unfold sortByPriceRef, deref, allocArray, sortInPlace.
  rewrite Hl. cbn [notACollection truthy isArray negb orb elements].
  f_equal. apply map_eq. intros i.
  rewrite lookup_alter. destruct (decide (fresh (dom σ) = i)) as [<-|Hne].
  - now rewrite !lookup_insert_eq.
  - now rewrite !lookup_insert_ne.
Qed.

(** C4. [sortByPrice] returns a new array and leaves its argument as it
    was.  The result has the length of the argument, is a permutation of
    it, is in non-decreasing order of the listed price for [asc] and
    non-increasing for [desc], a missing price counting as 0 (the product
    is kept), and the products of equal price are in their original
    order.  The comparator's key is the price of the product when it has
    one, and 0 when it has none. *)
Theorem sortByPrice_new_sorted_stable (σ : Store) (l : loc)
    (ps : list Product) (d : Direction) :
  σ !! l = Some ps ->
  let σ' := fst (sortByPriceRef σ (RefArray l) d) in
  let r := snd (sortByPriceRef σ (RefArray l) d) in
  let sorted := sortByPrice (JsArray ps) d in
  σ !! r = None /\
  σ' !! r = Some sorted /\
  σ' !! l = Some ps /\
  (forall l', l' <> r -> σ' !! l' = σ !! l') /\
  length sorted = length ps /\
  Permutation ps sorted /\
  StronglySorted (inPriceOrder d) sorted /\
  (forall k, List.filter (fun p => listedPrice p =? k) sorted =
             List.filter (fun p => listedPrice p =? k) ps) /\
  (forall p v, price p = Some v -> priceOrZero p = v) /\
  (forall p, price p = None ->
             priceOrZero p = 0 /\ (In p ps -> In p sorted)).
Proof.
  intros Hl. rewrite (sortByPriceRef_array σ l ps d Hl). cbn zeta.
  cbn [fst snd].
  assert (Hfresh : σ !! fresh (dom σ) = None)
    by (apply not_elem_of_dom, is_fresh).
  split; [exact Hfresh|].
  split; [apply lookup_insert_eq|].
  split; [rewrite lookup_insert_ne; [exact Hl | congruence]|].
  split; [intros l' Hne; now rewrite lookup_insert_ne|].
  rewrite sortByPrice_array at 1 2.
  split; [apply sortWith_length|].
  split; [apply sortWith_perm|].
  split; [apply sortByPrice_in_price_order|].
  split; [intros k; apply sortByPrice_keeps_listed_ties|].
  split; [intros p v Hv; now apply priceOrZero_some|].
  intros p Hp. split; [now apply priceOrZero_none|].
  rewrite sortByPrice_array. apply Permutation_in, sortWith_perm.
Qed.

(** ** Sorting by name, the sort state and the controller *)

Section HostSortFacts.
Context `{StringHost}.

Lemma localeCompare_refl s : localeCompare s s = 0.
Proof. pose proof (localeCompare_antisym s s). lia. Qed.

Lemma nameCompare_consistent d : ConsistentComparator (nameCompare d).
Proof.
  split; intros; unfold nameCompare in *; destruct d;
    eauto using localeCompare_antisym, localeCompare_trans.
Qed.

Lemma sortByName_array ps d :
  sortByName (JsArray ps) d = sortWith (nameCompare d) ps.
Proof. reflexivity. Qed.

Lemma nameCompare_same_lower d a b :
  toLowerCase (titleOrEmpty a) = toLowerCase (titleOrEmpty b) ->
  nameCompare d a b = 0.
Proof.
  intros Hab. unfold nameCompare. rewrite Hab.
  destruct d; apply localeCompare_refl.
Qed.

(** C5. The comparator of [sortByName] for [desc] is that for [asc] with
    its arguments exchanged.  For both directions the result is a
    permutation in the order of the comparator in which the products
    whose titles compare equal are in their original order; so two such
    products in a row stay as they are for [asc] and for [desc]: [desc] is
    not the [asc] result reversed. *)
Theorem sortByName_desc_exchanges_arguments (ps : list Product) :
  (forall a b, nameCompare Desc a b = nameCompare Asc b a) /\
  (forall d, Permutation ps (sortByName (JsArray ps) d)) /\
  (forall d, StronglySorted (inOrder (nameCompare d))
               (sortByName (JsArray ps) d)) /\
  (forall d x,
      List.filter (tie (nameCompare d) x) (sortByName (JsArray ps) d) =
      List.filter (tie (nameCompare d) x) ps) /\
  (forall a b, nameCompare Asc a b = 0 ->
      sortByName (JsArray [a; b]) Asc = [a; b] /\
      sortByName (JsArray [a; b]) Desc = [a; b]).
Proof.
  split; [reflexivity|].
  split; [intros d; rewrite sortByName_array; apply sortWith_perm|].
  split; [intros d; rewrite sortByName_array;
          apply sortWith_sorted, nameCompare_consistent|].
  split; [intros d x; rewrite sortByName_array;
          apply sortWith_stable, nameCompare_consistent|].
  intros a b Hab. rewrite !sortByName_array.
  split; apply sortWith_tied_pair; unfold tie; apply Z.eqb_eq; [exact Hab|].
  pose proof (cmp_antisym _ (nameCompare_consistent Asc) a b) as Hanti.
  change (nameCompare Desc a b) with (nameCompare Asc b a). lia.
Qed.

(** C9. [sortByName] compares the titles in lower case: two products whose
    titles are the same in lower case compare equal in both directions, so
    they are ties and the sort leaves them, like all the ties of a product,
    in their original order. *)
Theorem sortByName_ignores_letter_case (a b : Product) (ps : list Product)
    (d : Direction) :
  toLowerCase (titleOrEmpty a) = toLowerCase (titleOrEmpty b) ->
  nameCompare d a b = 0 /\
  nameCompare d b a = 0 /\
  tie (nameCompare d) a b = true /\
  sortByName (JsArray [a; b]) d = [a; b] /\
  sortByName (JsArray [b; a]) d = [b; a] /\
  List.filter (tie (nameCompare d) a) (sortByName (JsArray ps) d) =
  List.filter (tie (nameCompare d) a) ps.
Proof.
  intros Hab.
  assert (Hab0 : nameCompare d a b = 0) by now apply nameCompare_same_lower.
  assert (Hba0 : nameCompare d b a = 0) by now apply nameCompare_same_lower.
  split; [exact Hab0|]. split; [exact Hba0|].
  split; [unfold tie; now apply Z.eqb_eq|].
  rewrite !sortByName_array.
  split; [apply sortWith_tied_pair; unfold tie; now apply Z.eqb_eq|].
  split; [apply sortWith_tied_pair; unfold tie; now apply Z.eqb_eq|].
  apply sortWith_stable, nameCompare_consistent.
Qed.

(** C10. After one or more calls of [toggleSort], each with the field
    price or title, the sort field is price or title; from then on no
    event of the dashboard sets it back to none.  [clearSort] does, and no
    event calls it. *)
Theorem toggleSort_never_unsets_field (sc : SortController)
    (fs : list string) :
  fs <> [] ->
  Forall (fun f => f = "price" \/ f = "title") fs ->
  sortedByPriceOrTitle (toggleAll sc fs) /\
  Some (List.last fs EmptyString) = field (currentSort (toggleAll sc fs)) /\
  (forall c evs, sortController c = toggleAll sc fs ->
     sortedByPriceOrTitle (sortController (fold_left handle evs c))) /\
  field (currentSort (clearSort (toggleAll sc fs))) = None.
Proof.
  intros Hne Hall.
  destruct (exists_last Hne) as (fs' & f & ->).
  assert (Hfield : field (currentSort (toggleAll sc (fs' ++ [f]))) = Some f)
    by (rewrite toggleAll_snoc; apply toggleSort_field).
  assert (Hset : sortedByPriceOrTitle (toggleAll sc (fs' ++ [f]))).
  { apply Forall_app in Hall as [_ Hf]. apply Forall_inv in Hf.
    unfold sortedByPriceOrTitle. rewrite Hfield.
    destruct Hf as [-> | ->]; auto. }
  split; [exact Hset|].
  split; [now rewrite List.last_last|].
  split; [|reflexivity].
  intros c evs Hc. rewrite <- Hc in Hset. clear Hc. revert c Hset.
  induction evs as [|ev evs IH]; intros c Hset; simpl; [exact Hset|].
  apply IH, handle_keeps_sort_field, Hset.
Qed.

Lemma applyFilters_as_updateDisplay c :
  upToDate c -> applyFilters c = updateDisplay c.
Proof.
  unfold upToDate, applyFilters. intros <-. now destruct c.
Qed.

Lemma updateDisplay_upToDate c : upToDate c -> upToDate (updateDisplay c).
Proof.
  unfold upToDate, updateDisplay, filterAndSort.
  destruct (getPagedData (paginationController c) (filteredProducts c)).
  now simpl.
Qed.

Lemma applyFilters_upToDate c : upToDate (applyFilters c).
Proof. unfold applyFilters. now apply updateDisplay_upToDate. Qed.

Lemma withPagination_upToDate c pc : upToDate c -> upToDate (withPagination c pc).
Proof. now unfold upToDate. Qed.

Lemma notify_upToDate fired m c : upToDate c -> upToDate (notify fired m c).
Proof.
  intros Hc. destruct fired, m; simpl;
    auto using applyFilters_upToDate, updateDisplay_upToDate.
Qed.

Lemma handle_upToDate c ev : upToDate c -> upToDate (handle c ev).
Proof.
  intros Hc.
  destruct ev as [value| | |n| | |size|[fetched|]]; simpl;
    try apply applyFilters_upToDate; try exact Hc;
    repeat match goal with
      | |- context [goToPage ?p ?n] => destruct (goToPage p n)
      | |- context [changePageSize ?p ?n] => destruct (changePageSize p n)
      | |- context [if ?b then _ else _] => destruct b
      end;
    try exact Hc;
    try (apply notify_upToDate, withPagination_upToDate, Hc);
    apply applyFilters_upToDate.
Qed.

Lemma run_upToDate evs : upToDate (run evs).
Proof.
  unfold run. assert (H0 : upToDate newDashboardController) by reflexivity.
  revert H0. generalize newDashboardController.
  induction evs as [|ev evs IH]; intros c Hc; simpl; [exact Hc|].
  apply IH, handle_upToDate, Hc.
Qed.

(** C1. The callbacks route a page change to [updateDisplay] and a change
    of the search term, of the sort and of the page size to
    [applyFilters].  When the stored collection is what filtering and
    sorting the products gives, which holds in every state the dashboard
    reaches, a page change handled by [updateDisplay] alone gives the
    page, and the whole state, that [applyFilters] gives. *)
Theorem page_change_needs_slice_only (c : DashboardController) (n : Z) :
  upToDate c ->
  let pc := paginationController c in
  let paged := withPagination c (fst (goToPage pc n)) in
  currentPageProducts (updateDisplay paged) =
    currentPageProducts (applyFilters paged) /\
  updateDisplay paged = applyFilters paged /\
  (1 <= n <= totalPages pc ->
     handle c (PageButtonClick n) = updateDisplay paged /\
     currentPage (paginationController paged) = n) /\
  (forall value,
     handle c (SearchInput value) =
     applyFilters (withSearch c {| searchTerm := trim value |})) /\
  handle c SortPriceClick =
    applyFilters (withSort c (fst (toggleSort (sortController c) "price"))) /\
  handle c SortNameClick =
    applyFilters (withSort c (fst (toggleSort (sortController c) "title"))) /\
  (forall size, size = 5 \/ size = 10 \/ size = 20 ->
     handle c (PageSizeSelect size) =
     applyFilters (withPagination c (fst (changePageSize pc size)))) /\
  (forall evs, upToDate (run evs)).
Proof.
  intros Hc. cbn zeta.
  assert (Heq : updateDisplay
                  (withPagination c (fst (goToPage (paginationController c) n))) =
                applyFilters
                  (withPagination c (fst (goToPage (paginationController c) n))))
    by (symmetry; now apply applyFilters_as_updateDisplay, withPagination_upToDate).
  split; [now rewrite Heq|]. split; [exact Heq|].
  split.
  { intros Hn.
    cbn [handle]. rewrite (goToPage_in_range _ n Hn). split; reflexivity. }
  split; [reflexivity|]. split; [reflexivity|]. split; [reflexivity|].
  split; [|apply run_upToDate].
  intros size Hsize.
  cbn [handle]. rewrite (changePageSize_valid _ size Hsize). reflexivity.
Qed.

End HostSortFacts.

(** ** The properties on the sample data *)

Example sortByPrice_wardrobe :
  sortByPrice (JsArray Samples.wardrobe) Asc =
    [Samples.hat; Samples.sock; Samples.shirtUpper; Samples.shirtLower] /\
  sortByPrice (JsArray Samples.wardrobe) Desc =
    [Samples.shirtUpper; Samples.shirtLower; Samples.sock; Samples.hat].
Proof. split; reflexivity. Qed.

Example sortByName_wardrobe :
  sortByName (H := AsciiHost.host) (JsArray Samples.wardrobe) Asc =
    [Samples.hat; Samples.shirtUpper; Samples.shirtLower; Samples.sock] /\
  sortByName (H := AsciiHost.host) (JsArray Samples.wardrobe) Desc =
    [Samples.sock; Samples.shirtUpper; Samples.shirtLower; Samples.hat] /\
  sortByName (H := AsciiHost.host) (JsArray Samples.wardrobe) Desc <>
    rev (sortByName (H := AsciiHost.host) (JsArray Samples.wardrobe) Asc).
Proof. split; [reflexivity|]. split; [reflexivity|]. vm_compute. discriminate. Qed.

Example filter_wardrobe :
  filter (H := AsciiHost.host) Samples.searchingHat
    (JsArray Samples.wardrobe) (TermString "SHIRT") =
  [Samples.shirtUpper; Samples.shirtLower].
Proof. reflexivity. Qed.

(** The state of the counterexample to C2 is one the dashboard reaches. *)
Example searchedOnPage3_pagination :
  paginationController Samples.searchedOnPage3 =
  {| currentPage := 3; pageSize := 10; totalItems := 0; totalPages := 0 |}.
Proof. reflexivity. Qed.

(** Going to page 2 of the sorted sample catalog. *)
Lemma page_change_needs_slice_only_witness :
  upToDate (H := AsciiHost.host) Samples.loadedAndSorted /\
  updateDisplay
    (withPagination Samples.loadedAndSorted
       (fst (goToPage (paginationController Samples.loadedAndSorted) 2))) =
  applyFilters (H := AsciiHost.host)
    (withPagination Samples.loadedAndSorted
       (fst (goToPage (paginationController Samples.loadedAndSorted) 2))).
Proof.
  assert (Hup : upToDate (H := AsciiHost.host) Samples.loadedAndSorted)
    by (vm_compute; reflexivity).
  split; [exact Hup|].
  exact (proj1 (proj2 (page_change_needs_slice_only
                         (H := AsciiHost.host) Samples.loadedAndSorted 2 Hup))).
Defined.

(** C3, as stated, fails: called without a term while the search input
    holds "hat", [filter] does not return the collection as it is. *)
Lemma filter_without_term_uses_stored_term :
  filter (H := AsciiHost.host) Samples.searchingHat
    (JsArray [Samples.sock]) TermUndefined = [] /\
  filter (H := AsciiHost.host) Samples.searchingHat
    (JsArray [Samples.sock]) TermUndefined <> [Samples.sock].
Proof. split; [reflexivity | vm_compute; discriminate]. Qed.

(** Sorting the wardrobe by falling price leaves the array at location 1
    as it was; the new array has the shirts first, in their order, then
    the sock, then the hat, which has no price. *)
Lemma sortByPrice_new_sorted_stable_witness :
  Samples.wardrobeStore !! 1%positive = Some Samples.wardrobe /\
  fst (sortByPriceRef Samples.wardrobeStore (RefArray 1%positive) Desc)
    !! 1%positive = Some Samples.wardrobe /\
  fst (sortByPriceRef Samples.wardrobeStore (RefArray 1%positive) Desc)
    !! snd (sortByPriceRef Samples.wardrobeStore (RefArray 1%positive) Desc) =
  Some [Samples.shirtUpper; Samples.shirtLower; Samples.sock; Samples.hat].
Proof.
  assert (Hl : Samples.wardrobeStore !! 1%positive = Some Samples.wardrobe)
    by reflexivity.
  split; [exact Hl|].
  split.
  - exact (proj1 (proj2 (proj2 (sortByPrice_new_sorted_stable
                                  Samples.wardrobeStore 1%positive
                                  Samples.wardrobe Desc Hl)))).
  - exact (proj1 (proj2 (sortByPrice_new_sorted_stable
                           Samples.wardrobeStore 1%positive
                           Samples.wardrobe Desc Hl))).
Defined.

(** C8, as stated, fails: with no sort field set, [applySorting] hands back
    the missing collection, not an empty array. *)
Lemma applySorting_returns_missing_collection :
  applySorting (H := AsciiHost.host) newSortController JsUndefined = JsUndefined /\
  applySorting (H := AsciiHost.host) newSortController JsUndefined <> JsArray [].
Proof. split; [reflexivity | vm_compute; discriminate]. Qed.

(** [sortByName(undefined)] is the empty array. *)
Lemma not_an_array_gives_empty_witness :
  isArray JsUndefined = false /\
  sortByName (H := AsciiHost.host) JsUndefined Asc = [].
Proof.
  assert (Hv : isArray JsUndefined = false) by reflexivity.
  split; [exact Hv|].
  exact (proj1 (proj2 (proj2 (not_an_array_gives_empty
                                (H := AsciiHost.host) JsUndefined
                                Samples.searchingHat TermUndefined Asc
                                Samples.onPage3 newSortController Hv)))).
Defined.

(** "Shirt" and "shirt" compare equal. *)
Lemma sortByName_ignores_letter_case_witness :
  toLowerCase (StringHost := AsciiHost.host) (titleOrEmpty Samples.shirtUpper) =
  toLowerCase (StringHost := AsciiHost.host) (titleOrEmpty Samples.shirtLower) /\
  nameCompare (H := AsciiHost.host) Desc Samples.shirtUpper Samples.shirtLower = 0.
Proof.
  assert (Hlow : toLowerCase (StringHost := AsciiHost.host)
                   (titleOrEmpty Samples.shirtUpper) =
                 toLowerCase (StringHost := AsciiHost.host)
                   (titleOrEmpty Samples.shirtLower)) by reflexivity.
  split; [exact Hlow|].
  exact (proj1 (sortByName_ignores_letter_case
                  (H := AsciiHost.host) Samples.shirtUpper Samples.shirtLower
                  Samples.wardrobe Desc Hlow)).
Defined.

(** Price, price again, then title. *)
Lemma toggleSort_never_unsets_field_witness :
  ["price"; "price"; "title"] <> [] /\
  Forall (fun f : string => f = "price" \/ f = "title")
    ["price"; "price"; "title"] /\
  sortedByPriceOrTitle (toggleAll newSortController ["price"; "price"; "title"]).
Proof.
  assert (Hne : ["price"; "price"; "title"] <> @nil string) by discriminate.
  assert (Hall : Forall (fun f : string => f = "price" \/ f = "title")
                   ["price"; "price"; "title"])
    by (repeat constructor; auto).
  split; [exact Hne|]. split; [exact Hall|].
  exact (proj1 (toggleSort_never_unsets_field
                  (H := AsciiHost.host) newSortController
                  ["price"; "price"; "title"] Hne Hall)).
Defined.

(** ** Reporting a failed fetch *)

Lemma append_empty_l t : EmptyString +:+ t = t.
Proof. reflexivity. Qed.

Ltac unfold_append := rewrite ?append_String, ?append_empty_l.

Lemma takeDigits_uint u :
  takeDigits (NilEmpty.string_of_uint u) = NilEmpty.string_of_uint u.
Proof. induction u; simpl; congruence. Qed.

Lemma string_of_uint_nonnil u :
  u <> Decimal.Nil -> NilZero.string_of_uint u = NilEmpty.string_of_uint u.
Proof. destruct u; simpl; congruence. Qed.

Lemma string_of_uint_nonempty u :
  u <> Decimal.Nil -> isEmptyString (NilEmpty.string_of_uint u) = false.
Proof. destruct u; simpl; congruence. Qed.

(** No digit starts the word [status]. *)
Lemma matchStatus_uint u : matchStatus (NilEmpty.string_of_uint u) = None.
Proof. induction u; simpl; try reflexivity; exact IHu. Qed.

Lemma matchStatus_http_error_digits u :
  u <> Decimal.Nil ->
  matchStatus ("HTTP error! status: " +:+ NilEmpty.string_of_uint u) =
  Some (NilEmpty.string_of_uint u).
Proof.
  intros Hu. unfold_append.
  cbn -[takeDigits isEmptyString NilEmpty.string_of_uint].
  rewrite takeDigits_uint, string_of_uint_nonempty by exact Hu.
  reflexivity.
Qed.

Lemma matchStatus_http_error_negative u :
  matchStatus ("HTTP error! status: " +:+ String "-" (NilZero.string_of_uint u))
  = None.
Proof.
  unfold_append. cbn -[matchStatus NilZero.string_of_uint].
  destruct (Decimal.uint_eq_dec u Decimal.Nil) as [->|Hu].
  - reflexivity.
  - rewrite string_of_uint_nonnil by exact Hu. apply matchStatus_uint.
Qed.

Lemma digitsToNumber_pos p :
  digitsToNumber (NilEmpty.string_of_uint (Pos.to_uint p)) = Some (Z.pos p).
Proof.
  pose proof (DecimalPos.Unsigned.to_uint_nonnil p) as Hp.
  unfold digitsToNumber.
  rewrite <- string_of_uint_nonnil by exact Hp.
  rewrite NilZero.usu by exact Hp. simpl. f_equal.
  exact (DecimalZ.of_to (Z.pos p)).
Qed.

(** ** The page buttons *)

Lemma pageNumbers_app cs1 cs2 :
  pageNumbers (cs1 ++ cs2) = pageNumbers cs1 ++ pageNumbers cs2.
Proof. unfold pageNumbers. apply flat_map_app. Qed.

Lemma activePageNumbers_app cs1 cs2 :
  activePageNumbers (cs1 ++ cs2) = activePageNumbers cs1 ++ activePageNumbers cs2.
Proof. unfold activePageNumbers. apply flat_map_app. Qed.

Lemma pageNumbers_buttons pc ns :
  pageNumbers (map (createPageButton pc) ns) = ns.
Proof. induction ns as [|n ns IH]; simpl; congruence. Qed.

Lemma activePageNumbers_buttons pc ns :
  activePageNumbers (map (createPageButton pc) ns) =
  List.filter (fun n => n =? currentPage pc) ns.
Proof.
  induction ns as [|n ns IH]; simpl; [reflexivity|].
  destruct (n =? currentPage pc); simpl; congruence.
Qed.

Lemma ellipsis_not_button pc ns : EllipsisSpan ∉ map (createPageButton pc) ns.
Proof.
  intros Hin. apply list_elem_of_In, in_map_iff in Hin as (n & Hn & _).
  discriminate.
Qed.

(** The run of page buttons holds the current page and is as long as the
    number of pages allows, up to five. *)
Lemma visibleRange_spec pc s e :
  1 <= currentPage pc <= totalPages pc ->
  visibleRange pc = (s, e) ->
  1 <= s /\ s <= currentPage pc /\ currentPage pc <= e /\ e <= totalPages pc /\
  e - s + 1 = Z.min 5 (totalPages pc).
Proof.
  intros Hcp. unfold visibleRange. change (5 / 2) with 2.
  destruct (Z.ltb_spec
              (Z.min (totalPages pc) (Z.max 1 (currentPage pc - 2) + 5 - 1) -
               Z.max 1 (currentPage pc - 2) + 1) 5);
    intros [= <- <-]; lia.
Qed.

Lemma renderPageNumbers_numbers pc s e :
  visibleRange pc = (s, e) ->
  pageNumbers (renderPageNumbers pc) =
  (if s >? 1 then [1] else []) ++ seqZ s (e - s + 1) ++
  (if e <? totalPages pc then [totalPages pc] else []).
Proof.
  intros Hr. unfold renderPageNumbers. rewrite Hr.
  rewrite !pageNumbers_app, pageNumbers_buttons.
  destruct (s >? 1), (s >? 2), (e <? totalPages pc),
    (e <? totalPages pc - 1); reflexivity.
Qed.

Lemma seqZ_sorted m n : StronglySorted Z.lt (seqZ m n).
Proof.
  remember (Z.to_nat n) as k eqn:Hk. revert m n Hk.
  induction k as [|k IH]; intros m n Hk.
  - rewrite seqZ_nil by lia. constructor.
  - rewrite seqZ_cons by lia. constructor; [apply IH; lia|].
    apply Forall_seqZ. lia.
Qed.

Lemma renderPageNumbers_sorted pc :
  1 <= currentPage pc <= totalPages pc ->
  StronglySorted Z.lt (pageNumbers (renderPageNumbers pc)).
Proof.
  intros Hcp. destruct (visibleRange pc) as [s e] eqn:Hr.
  destruct (visibleRange_spec pc s e Hcp Hr) as (Hs & Hsc & Hce & Het & Hlen).
  rewrite (renderPageNumbers_numbers pc s e Hr).
  apply StronglySorted_app_2; [| |apply StronglySorted_app_2].
  - intros x1 x2 H1 H2.
    destruct (Z.gtb_spec s 1); [|now apply elem_of_nil in H1].
    apply list_elem_of_singleton in H1 as ->.
    apply elem_of_app in H2 as [H2|H2].
    + apply elem_of_seqZ in H2. lia.
    + destruct (Z.ltb_spec e (totalPages pc)); [|now apply elem_of_nil in H2].
      apply list_elem_of_singleton in H2. lia.
  - destruct (s >? 1); repeat constructor.
  - intros x1 x2 H1 H2. apply elem_of_seqZ in H1.
    destruct (Z.ltb_spec e (totalPages pc)); [|now apply elem_of_nil in H2].
    apply list_elem_of_singleton in H2. lia.
  - apply seqZ_sorted.
  - destruct (e <? totalPages pc); repeat constructor.
Qed.

Lemma renderPageNumbers_elem pc n :
  1 <= currentPage pc <= totalPages pc ->
  n ∈ pageNumbers (renderPageNumbers pc) <->
  n = 1 \/ n = totalPages pc \/
  (fst (visibleRange pc) <= n <= snd (visibleRange pc)).
Proof.
  intros Hcp. destruct (visibleRange pc) as [s e] eqn:Hr.
  destruct (visibleRange_spec pc s e Hcp Hr) as (Hs & Hsc & Hce & Het & Hlen).
  rewrite (renderPageNumbers_numbers pc s e Hr). cbn [fst snd].
  rewrite !elem_of_app, elem_of_seqZ.
  destruct (Z.gtb_spec s 1); destruct (Z.ltb_spec e (totalPages pc));
    rewrite ?list_elem_of_singleton, ?elem_of_nil; lia.
Qed.

Lemma filter_eqb_seqZ_above c m n :
  c < m -> List.filter (fun k => k =? c) (seqZ m n) = [].
Proof.
  remember (Z.to_nat n) as j eqn:Hj. revert m n Hj.
  induction j as [|j IH]; intros m n Hj Hc.
  - now rewrite seqZ_nil by lia.
  - rewrite seqZ_cons by lia. simpl.
    destruct (Z.eqb_spec m c); [lia|]. apply IH; lia.
Qed.

Lemma filter_eqb_seqZ_inside c m n :
  m <= c < m + n -> List.filter (fun k => k =? c) (seqZ m n) = [c].
Proof.
  remember (Z.to_nat n) as j eqn:Hj. revert m n Hj.
  induction j as [|j IH]; intros m n Hj Hc; [lia|].
  rewrite seqZ_cons by lia. simpl. destruct (Z.eqb_spec m c) as [->|Hne].
  - now rewrite filter_eqb_seqZ_above by lia.
  - apply IH; lia.
Qed.

(** X1. With the current page among the pages, the page buttons carry
    strictly increasing page numbers, all of them pages that exist; the
    first page, the last page and the current page have a button; there
    are at most seven buttons, and one for every page when there are at
    most five pages.  A click on any of them is a page change that
    [goToPage] accepts. *)
Theorem page_buttons_increasing_and_accepted (pc : PaginationController) :
  1 <= currentPage pc <= totalPages pc ->
  let ns := pageNumbers (renderPageNumbers pc) in
  StronglySorted Z.lt ns /\
  1 ∈ ns /\ totalPages pc ∈ ns /\ currentPage pc ∈ ns /\
  (forall n, n ∈ ns ->
     1 <= n <= totalPages pc /\
     snd (goToPage pc n) = true /\
     currentPage (fst (goToPage pc n)) = n) /\
  (length ns <= 7)%nat /\
  (totalPages pc <= 5 -> ns = seqZ 1 (totalPages pc)).
Proof.
  intros Hcp. cbn zeta.
  destruct (visibleRange pc) as [s e] eqn:Hr.
  destruct (visibleRange_spec pc s e Hcp Hr) as (Hs & Hsc & Hce & Het & Hlen).
  split; [now apply renderPageNumbers_sorted|].
  rewrite !(renderPageNumbers_elem pc _ Hcp), Hr. cbn [fst snd].
  split; [auto|]. split; [auto|]. split; [right; right; lia|].
  split.
  - intros n Hn. apply (renderPageNumbers_elem pc n Hcp) in Hn.
    rewrite Hr in Hn. cbn [fst snd] in Hn.
    assert (Hin : 1 <= n <= totalPages pc) by lia.
    rewrite (goToPage_in_range pc n Hin). auto.
  - rewrite (renderPageNumbers_numbers pc s e Hr). split.
    + rewrite !length_app, length_seqZ.
      destruct (s >? 1), (e <? totalPages pc); simpl; lia.
    + intros Hfew. assert (s = 1) as -> by lia. assert (e = totalPages pc) as -> by lia.
      rewrite Z.ltb_irrefl. change (1 >? 1) with false.
      simpl. rewrite app_nil_r. f_equal. lia.
Qed.

(** X2. With the current page among the pages, exactly one page button is
    marked active, the one of the current page. *)
Theorem one_active_page_button (pc : PaginationController) :
  1 <= currentPage pc <= totalPages pc ->
  activePageNumbers (renderPageNumbers pc) = [currentPage pc].
Proof.
  intros Hcp. destruct (visibleRange pc) as [s e] eqn:Hr.
  destruct (visibleRange_spec pc s e Hcp Hr) as (Hs & Hsc & Hce & Het & Hlen).
  unfold renderPageNumbers. rewrite Hr.
  rewrite !activePageNumbers_app, activePageNumbers_buttons.
  rewrite filter_eqb_seqZ_inside by lia.
  assert (Hfirst : activePageNumbers
            (if s >? 1
             then createPageButton pc 1 :: (if s >? 2 then [EllipsisSpan] else [])
             else []) = []).
  { destruct (Z.gtb_spec s 1); [|reflexivity]. unfold createPageButton.
    replace (1 =? currentPage pc) with false
      by (symmetry; apply Z.eqb_neq; lia).
    destruct (s >? 2); reflexivity. }
  assert (Hlast : activePageNumbers
            (if e <? totalPages pc
             then (if e <? totalPages pc - 1 then [EllipsisSpan] else []) ++
                  [createPageButton pc (totalPages pc)]
             else []) = []).
  { destruct (Z.ltb_spec e (totalPages pc)); [|reflexivity].
    rewrite activePageNumbers_app. unfold createPageButton.
    replace (totalPages pc =? currentPage pc) with false
      by (symmetry; apply Z.eqb_neq; lia).
    destruct (e <? totalPages pc - 1); reflexivity. }
  now rewrite Hfirst, Hlast.
Qed.

(** X3. With the current page among the pages, the page buttons contain an
    ellipsis exactly when some page has no button. *)
Theorem ellipsis_marks_skipped_pages (pc : PaginationController) :
  1 <= currentPage pc <= totalPages pc ->
  EllipsisSpan ∈ renderPageNumbers pc <->
  exists n, 1 <= n <= totalPages pc /\ n ∉ pageNumbers (renderPageNumbers pc).
Proof.
  intros Hcp. destruct (visibleRange pc) as [s e] eqn:Hr.
  destruct (visibleRange_spec pc s e Hcp Hr) as (Hs & Hsc & Hce & Het & Hlen).
  assert (Hell : EllipsisSpan ∈ renderPageNumbers pc <->
                 2 < s \/ e < totalPages pc - 1).
  { unfold renderPageNumbers. rewrite Hr. rewrite !elem_of_app.
    split.
    - intros [Hin|[Hin|Hin]].
      + destruct (Z.gtb_spec s 1); [|now apply elem_of_nil in Hin].
        destruct (Z.gtb_spec s 2); [left; lia|].
        apply list_elem_of_singleton in Hin. discriminate.
      + now apply ellipsis_not_button in Hin.
      + destruct (Z.ltb_spec e (totalPages pc)); [|now apply elem_of_nil in Hin].
        destruct (Z.ltb_spec e (totalPages pc - 1)); [right; lia|].
        apply list_elem_of_singleton in Hin. discriminate.
    - intros [Hgap|Hgap].
      + left. destruct (Z.gtb_spec s 1); [|lia].
        destruct (Z.gtb_spec s 2); [|lia]. repeat constructor.
      + right. right. destruct (Z.ltb_spec e (totalPages pc)); [|lia].
        destruct (Z.ltb_spec e (totalPages pc - 1)); [|lia].
        simpl. repeat constructor. }
  rewrite Hell. split.
  - intros [Hgap|Hgap]; [exists 2 | exists (e + 1)];
      rewrite (renderPageNumbers_elem pc _ Hcp), Hr; cbn [fst snd]; lia.
  - intros (n & Hn & Hout).
    rewrite (renderPageNumbers_elem pc _ Hcp), Hr in Hout. cbn [fst snd] in Hout.
    lia.
Qed.

(** ** Pages *)

Lemma settledPage_idempotent cp tp :
  settledPage (settledPage cp tp) tp = settledPage cp tp.
Proof.
  destruct (Z_lt_le_dec 0 tp) as [Hpos|Hnone].
  - apply settledPage_in_range.
    pose proof (settledPage_ge_1 cp tp). pose proof (settledPage_le cp tp Hpos).
    lia.
  - unfold settledPage.
    destruct (Z.gtb_spec tp 0) as [|_]; [lia|].
    rewrite !andb_false_r.
    destruct (Z.ltb_spec cp 1); [reflexivity|].
    destruct (Z.ltb_spec cp 1); [lia | reflexivity].
Qed.

Lemma getPagedData_twice pc v :
  getPagedData (fst (getPagedData pc v)) v = getPagedData pc v.
Proof.
  destruct (isArray v) eqn:Hv.
  - destruct v as [| | | | |data]; try discriminate.
    rewrite !getPagedData_array. cbn zeta.
    cbn [fst currentPage pageSize totalItems totalPages].
    now rewrite settledPage_idempotent.
  - unfold getPagedData. rewrite notACollection_isArray, Hv. reflexivity.
Qed.

Lemma getPagedData_chunk pc data :
  0 < pageSize pc ->
  snd (getPagedData pc (JsArray data)) =
  take (Z.to_nat (pageSize pc))
    (drop (Z.to_nat ((currentPage (fst (getPagedData pc (JsArray data))) - 1)
                     * pageSize pc)) data).
Proof.
  intros Hps. rewrite getPagedData_array. cbn zeta. cbn [fst snd currentPage].
  apply slice_from; [|lia].
  pose proof (settledPage_ge_1 (currentPage pc)
                (ceilDiv (Z.of_nat (length data)) (pageSize pc))). nia.
Qed.

Lemma pageShownAt_chunk pc data n :
  0 < pageSize pc ->
  1 <= n <= totalPages (fst (getPagedData pc (JsArray data))) ->
  pageShownAt (fst (getPagedData pc (JsArray data))) data n =
  take (Z.to_nat (pageSize pc)) (drop (Z.to_nat ((n - 1) * pageSize pc)) data).
Proof.
  intros Hps Hn. unfold pageShownAt.
  rewrite (goToPage_in_range _ n Hn). cbn [fst].
  rewrite getPagedData_chunk by (rewrite getPagedData_array; exact Hps).
  rewrite !getPagedData_array in *. cbn zeta in *.
  cbn [fst snd currentPage pageSize totalItems totalPages] in *.
  now rewrite settledPage_in_range.
Qed.

Lemma concat_chunks (size : nat) (k : nat) :
  forall (data : list Product) (m : Z),
    (length data <= k * size)%nat ->
    concat (map (fun n => take size (drop (Z.to_nat (n - m) * size) data))
              (seqZ m (Z.of_nat k))) = data.
Proof.
  induction k as [|k IH]; intros data m Hlen.
  - destruct data; [reflexivity | simpl in Hlen; lia].
  - rewrite seqZ_cons by lia.
    cbn [map concat]. rewrite Z.sub_diag. simpl drop.
    replace (Z.pred (Z.of_nat (S k))) with (Z.of_nat k) by lia.
    rewrite (map_ext_in _
               (fun n => take size
                           (drop (Z.to_nat (n - Z.succ m) * size)
                              (drop size data)))).
    + rewrite IH by (rewrite length_drop; lia). apply take_drop.
    + intros n Hn. apply list_elem_of_In, elem_of_seqZ in Hn.
      rewrite drop_drop. do 2 f_equal.
      replace (Z.to_nat (n - m)) with (S (Z.to_nat (n - Z.succ m))) by lia.
      simpl. lia.
Qed.

(** X4. The pages make up the collection: going to the pages 1 to
    [totalPages] in turn shows every item once, in order. *)
Theorem pages_make_up_the_collection (pc : PaginationController)
    (data : list Product) :
  0 < pageSize pc ->
  let pc' := fst (getPagedData pc (JsArray data)) in
  concat (map (pageShownAt pc' data) (seqZ 1 (totalPages pc'))) = data.
Proof.
  intros Hps. cbn zeta.
  set (pc' := fst (getPagedData pc (JsArray data))).
  pose proof (ceilDiv_spec (Z.of_nat (length data)) (pageSize pc) Hps) as Hceil.
  pose proof (ceilDiv_nonneg (Z.of_nat (length data)) (pageSize pc) Hps
                ltac:(lia)) as Htp.
  assert (Htotal : totalPages pc' =
                   ceilDiv (Z.of_nat (length data)) (pageSize pc))
    by (subst pc'; now rewrite getPagedData_array).
  rewrite (map_ext_in _
             (fun n => take (Z.to_nat (pageSize pc))
                         (drop (Z.to_nat (n - 1) * Z.to_nat (pageSize pc))
                            data))).
  - rewrite <- (Z2Nat.id (totalPages pc')) by lia.
    apply concat_chunks. unfold isCeilingOf in Hceil. rewrite Htotal. nia.
  - intros n Hn. apply list_elem_of_In, elem_of_seqZ in Hn.
    subst pc'. rewrite pageShownAt_chunk by (auto; lia).
    do 2 f_equal. rewrite Z2Nat.inj_mul by lia. reflexivity.
Qed.

(** X5. Every page before the last holds [pageSize] items and the last page
    holds the rest, at least one item and at most [pageSize]. *)
Theorem pages_are_full_but_the_last (pc : PaginationController)
    (data : list Product) (n : Z) :
  0 < pageSize pc ->
  let pc' := fst (getPagedData pc (JsArray data)) in
  1 <= n <= totalPages pc' ->
  let shown := Z.of_nat (length (pageShownAt pc' data n)) in
  (n < totalPages pc' -> shown = pageSize pc) /\
  (n = totalPages pc' ->
   shown = Z.of_nat (length data) - (totalPages pc' - 1) * pageSize pc) /\
  1 <= shown <= pageSize pc.
Proof.
  intros Hps. cbn zeta. intros Hn.
  rewrite pageShownAt_chunk by auto.
  rewrite getPagedData_array in *. cbn zeta in *.
  cbn [fst totalPages] in *.
  pose proof (ceilDiv_spec (Z.of_nat (length data)) (pageSize pc) Hps) as Hceil.
  unfold isCeilingOf in Hceil.
  set (tp := ceilDiv (Z.of_nat (length data)) (pageSize pc)) in *.
  rewrite length_take, length_drop. nia.
Qed.

(** X6. Calling [getPagedData] again on the same collection changes
    nothing: it returns the same page and leaves the state it has set. *)
Theorem getPagedData_is_idempotent (pc : PaginationController) (v : JsValue) :
  getPagedData (fst (getPagedData pc v)) v = getPagedData pc v.
Proof. apply getPagedData_twice. Qed.

(** X7. On a collection that is not empty, the info line names the items
    on show: the page holds the items numbered from [startItem] to
    [endItem], which lie between 1 and [totalItems]. *)
Theorem info_line_names_the_items_shown (pc : PaginationController)
    (data : list Product) :
  0 < pageSize pc ->
  data <> [] ->
  let pc' := fst (getPagedData pc (JsArray data)) in
  let page := snd (getPagedData pc (JsArray data)) in
  1 <= startItem pc' <= endItem pc' /\
  endItem pc' <= totalItems pc' /\
  Z.of_nat (length page) = endItem pc' - startItem pc' + 1 /\
  page = take (Z.to_nat (endItem pc' - startItem pc' + 1))
           (drop (Z.to_nat (startItem pc' - 1)) data).
Proof.
  intros Hps Hdata. cbn zeta.
  rewrite (getPagedData_chunk pc data Hps).
  rewrite getPagedData_array. cbn zeta.
  unfold startItem, endItem.
  cbn [fst snd currentPage pageSize totalItems totalPages].
  pose proof (ceilDiv_spec (Z.of_nat (length data)) (pageSize pc) Hps) as Hceil.
  unfold isCeilingOf in Hceil.
  set (tp := ceilDiv (Z.of_nat (length data)) (pageSize pc)) in *.
  assert (Hlen : 0 < Z.of_nat (length data))
    by (destruct data; [congruence | simpl; lia]).
  assert (Htp : 0 < tp) by nia.
  pose proof (settledPage_ge_1 (currentPage pc) tp) as Hge.
  pose proof (settledPage_le (currentPage pc) tp Htp) as Hle.
  set (cp := settledPage (currentPage pc) tp) in *.
  replace ((cp - 1) * pageSize pc + 1 - 1) with ((cp - 1) * pageSize pc) by lia.
  replace (cp * pageSize pc) with ((cp - 1) * pageSize pc + pageSize pc) by lia.
  assert (Hstart : (cp - 1) * pageSize pc < Z.of_nat (length data)) by nia.
  assert (Hstart0 : 0 <= (cp - 1) * pageSize pc) by nia.
  set (start := (cp - 1) * pageSize pc) in *.
  split; [lia|]. split; [lia|].
  split.
  - rewrite length_take, length_drop. lia.
  - set (rest := drop (Z.to_nat start) data).
    assert (Hrest : Z.of_nat (length rest) = Z.of_nat (length data) - start)
      by (subst rest; rewrite length_drop; lia).
    destruct (Z_le_gt_dec (start + pageSize pc) (Z.of_nat (length data))).
    + f_equal. lia.
    + rewrite !take_ge; [reflexivity | |]; lia.
Qed.

(** X8. The pagination controls are hidden exactly when the collection
    fits on one page; otherwise they are shown, between a previous button
    and a next button. *)
Theorem controls_hidden_when_one_page_suffices (pc : PaginationController)
    (data : list Product) (view : PaginationView) :
  0 < pageSize pc ->
  let pc' := fst (getPagedData pc (JsArray data)) in
  let view' := renderControls pc' view in
  (Z.of_nat (length data) <= pageSize pc ->
   containerDisplay view' = "none" /\ controls view' = controls view) /\
  (pageSize pc < Z.of_nat (length data) ->
   containerDisplay view' = "flex" /\
   controls view' =
     [PrevButton (currentPage pc' =? 1)] ++ renderPageNumbers pc' ++
     [NextButton (currentPage pc' =? totalPages pc')]).
Proof.
  intros Hps. cbn zeta. rewrite getPagedData_array. cbn zeta. cbn [fst].
  unfold renderControls. cbn [totalItems totalPages currentPage].
  pose proof (ceilDiv_spec (Z.of_nat (length data)) (pageSize pc) Hps) as Hceil.
  unfold isCeilingOf in Hceil.
  set (tp := ceilDiv (Z.of_nat (length data)) (pageSize pc)) in *.
  split; intros Hfit.
  - assert (Hone : tp <= 1) by nia.
    replace (tp <=? 1) with true by (symmetry; apply Z.leb_le; exact Hone).
    rewrite orb_true_r. split; reflexivity.
  - replace (tp <=? 1) with false by (symmetry; apply Z.leb_gt; nia).
    replace (Z.of_nat (length data) =? 0) with false
      by (symmetry; apply Z.eqb_neq; lia).
    split; reflexivity.
Qed.

(** ** More on the stable sort *)

Section SortMoreFacts.
Context {A : Type} (compareFn : A -> A -> Z).
Hypothesis consistent : ConsistentComparator compareFn.

Lemma insertSorted_front x l :
  Forall (inOrder compareFn x) l -> insertSorted compareFn x l = x :: l.
Proof.
  intros Hall. destruct l as [|y ys]; [reflexivity|]. simpl.
  apply Forall_inv in Hall. unfold inOrder in Hall.
  destruct (Z.leb_spec (compareFn x y) 0); [reflexivity | lia].
Qed.

Lemma sortWith_sorted_id l :
  StronglySorted (inOrder compareFn) l -> sortWith compareFn l = l.
Proof.
  induction 1 as [|x l Hs IH Hall]; simpl; [reflexivity|].
  rewrite IH. now apply insertSorted_front.
Qed.

Lemma Forall_bool_filter (P : A -> Prop) (f : A -> bool) l :
  Forall P l -> Forall P (List.filter f l).
Proof.
  induction 1 as [|x l Hx Hl IH]; simpl; [constructor|].
  destruct (f x); [constructor|]; assumption.
Qed.

Lemma filter_insertSorted (f : A -> bool) x s :
  StronglySorted (inOrder compareFn) s ->
  List.filter f (insertSorted compareFn x s) =
  if f x then insertSorted compareFn x (List.filter f s) else List.filter f s.
Proof.
  induction 1 as [|y ys Hs IH Hall]; simpl.
  - destruct (f x); reflexivity.
  - destruct (Z.leb_spec (compareFn x y) 0) as [Hle|Hgt]; simpl.
    + destruct (f x) eqn:Hfx; [|reflexivity].
      symmetry. apply (insertSorted_front x (List.filter f (y :: ys))).
      apply Forall_bool_filter. constructor; [exact Hle|].
      eapply Forall_impl; [exact Hall|].
      intros z Hyz. exact (cmp_trans _ consistent x y z Hle Hyz).
    + rewrite IH. destruct (f y) eqn:Hfy, (f x) eqn:Hfx; simpl;
        try reflexivity.
      destruct (Z.leb_spec (compareFn x y) 0); [lia | reflexivity].
Qed.

(** Filtering and sorting may be done in either order. *)
Lemma filter_sortWith (f : A -> bool) l :
  List.filter f (sortWith compareFn l) = sortWith compareFn (List.filter f l).
Proof.
  induction l as [|x l IH]; simpl; [reflexivity|].
  rewrite filter_insertSorted by now apply sortWith_sorted.
  rewrite IH. destruct (f x); reflexivity.
Qed.

Lemma tie_refl x : tie compareFn x x = true.
Proof. unfold tie. apply Z.eqb_eq. now apply compare_refl. Qed.

Lemma tie_comm x y : tie compareFn x y = tie compareFn y x.
Proof.
  destruct (tie compareFn x y) eqn:Hxy, (tie compareFn y x) eqn:Hyx;
    try reflexivity.
  - apply (tie_sym _ consistent) in Hxy. congruence.
  - apply (tie_sym _ consistent) in Hyx. congruence.
Qed.

(** Two ordered lists with the same ties in the same order are equal. *)
Lemma sorted_stable_unique l1 :
  forall l2,
    StronglySorted (inOrder compareFn) l1 ->
    StronglySorted (inOrder compareFn) l2 ->
    (forall x, List.filter (tie compareFn x) l1 =
               List.filter (tie compareFn x) l2) ->
    l1 = l2.
Proof.
  induction l1 as [|a l1 IH]; intros [|b l2] Hs1 Hs2 Hties.
  - reflexivity.
  - specialize (Hties b). simpl in Hties. now rewrite tie_refl in Hties.
  - specialize (Hties a). simpl in Hties. now rewrite tie_refl in Hties.
  - apply StronglySorted_inv in Hs1 as [Hs1 Ha].
    apply StronglySorted_inv in Hs2 as [Hs2 Hb].
    assert (Hab : tie compareFn a b = true).
    { destruct (tie compareFn a b) eqn:Hab; [reflexivity|].
      pose proof (Hties a) as Hta. simpl in Hta.
      rewrite tie_refl, Hab in Hta.
      assert (Hin2 : In a l2).
      { eapply proj1, filter_In. rewrite <- Hta. now left. }
      pose proof (Hties b) as Htb. simpl in Htb.
      rewrite tie_refl, (tie_comm b a), Hab in Htb.
      assert (Hin1 : In b l1).
      { eapply proj1, filter_In. rewrite Htb. now left. }
      rewrite List.Forall_forall in Ha, Hb.
      specialize (Ha b Hin1). specialize (Hb a Hin2).
      unfold inOrder in Ha, Hb. unfold tie in Hab.
      apply Z.eqb_neq in Hab.
      pose proof (cmp_antisym _ consistent a b). lia. }
    pose proof (Hties a) as Hta. simpl in Hta. rewrite tie_refl, Hab in Hta.
    injection Hta as <- _.
    f_equal. apply IH; [assumption | assumption |].
    intros x. specialize (Hties x). simpl in Hties.
    destruct (tie compareFn x a); [now injection Hties | exact Hties].
Qed.

(** What is ordered and keeps the ties of a list in their order is the
    sorted list. *)
Lemma sortWith_unique l l' :
  StronglySorted (inOrder compareFn) l' ->
  (forall x, List.filter (tie compareFn x) l' = List.filter (tie compareFn x) l) ->
  l' = sortWith compareFn l.
Proof.
  intros Hs Hties. apply sorted_stable_unique; [exact Hs| |].
  - now apply sortWith_sorted.
  - intros x. rewrite Hties. symmetry. now apply sortWith_stable.
Qed.

End SortMoreFacts.

Section SortReversed.
Context {A : Type} (compareFn : A -> A -> Z).
Hypothesis consistent : ConsistentComparator compareFn.

Lemma exchanged_consistent : ConsistentComparator (exchanged compareFn).
Proof.
  split; unfold exchanged.
  - intros a b. apply (cmp_antisym _ consistent).
  - intros a b c Hab Hbc. exact (cmp_trans _ consistent c b a Hbc Hab).
Qed.

Lemma StronglySorted_rev_exchanged l :
  StronglySorted (inOrder compareFn) l ->
  StronglySorted (inOrder (exchanged compareFn)) (rev l).
Proof.
  induction 1 as [|x l Hs IH Hall]; simpl; [constructor|].
  apply StronglySorted_app_2; [|exact IH|repeat constructor].
  intros y x' Hy Hx. apply list_elem_of_singleton in Hx as ->.
  apply list_elem_of_In, in_rev in Hy.
  rewrite List.Forall_forall in Hall. exact (Hall y Hy).
Qed.

Lemma sortWith_exchanged l :
  sortWith (exchanged compareFn) l = rev (sortWith compareFn (rev l)).
Proof.
  symmetry. apply (sortWith_unique (exchanged compareFn) exchanged_consistent).
  - apply StronglySorted_rev_exchanged. now apply sortWith_sorted.
  - intros x.
    assert (Hext : forall y, tie (exchanged compareFn) x y = tie compareFn x y)
      by (intros y; unfold exchanged; apply (tie_comm compareFn consistent)).
    rewrite !(List.filter_ext _ _ Hext).
    rewrite List.filter_rev, (sortWith_stable compareFn consistent).
    now rewrite List.filter_rev, rev_involutive.
Qed.

End SortReversed.

(** X9. [sortByPrice] returns the only arrangement of its kind: an
    arrangement that is in the order of the prices along the direction and
    in which the products of each price are in the order they have in the
    collection is the result of [sortByPrice]. *)
Theorem sortByPrice_is_the_stable_arrangement (ps arranged : list Product)
    (d : Direction) :
  StronglySorted (priceOrdered d) arranged ->
  (forall k, List.filter (fun p => priceOrZero p =? k) arranged =
             List.filter (fun p => priceOrZero p =? k) ps) ->
  arranged = sortByPrice (JsArray ps) d.
Proof.
  intros Hs Hties. rewrite sortByPrice_array.
  apply (sortWith_unique _ (priceCompare_consistent d)).
  - eapply StronglySorted_weaken; [|exact Hs].
    intros a b. unfold inOrder, priceCompare, priceOrdered. destruct d; lia.
  - intros x.
    rewrite !(List.filter_ext (tie (priceCompare d) x)
                (fun p => priceOrZero p =? priceOrZero x))
      by (intros p; apply tie_priceCompare).
    apply Hties.
Qed.

Section HostSortMoreFacts.
Context `{StringHost}.

Lemma applySorting_array sc ps :
  exists sorted, applySorting sc (JsArray ps) = JsArray sorted.
Proof.
  unfold applySorting.
  destruct (noField (field (currentSort sc))); [eauto|].
  destruct (fieldIs (field (currentSort sc)) "price"); [eauto|].
  destruct (fieldIs (field (currentSort sc)) "title"); eauto.
Qed.

(** X10. Descending order is the ascending order of the collection read
    backwards, read backwards: for [sortByPrice] and for [sortByName]. *)
Theorem descending_is_ascending_backwards (ps : list Product) :
  sortByPrice (JsArray ps) Desc = rev (sortByPrice (JsArray (rev ps)) Asc) /\
  sortByName (JsArray ps) Desc = rev (sortByName (JsArray (rev ps)) Asc).
Proof.
  rewrite !sortByPrice_array, !sortByName_array. split.
  - exact (sortWith_exchanged (priceCompare Asc) (priceCompare_consistent Asc) ps).
  - exact (sortWith_exchanged (nameCompare Asc) (nameCompare_consistent Asc) ps).
Qed.

(** X11. Sorting what is sorted changes nothing: [applySorting] applied to
    its own result returns it. *)
Theorem applySorting_is_idempotent (sc : SortController) (v : JsValue) :
  applySorting sc (applySorting sc v) = applySorting sc v.
Proof.
  unfold applySorting.
  destruct (noField (field (currentSort sc))); [reflexivity|].
  destruct (fieldIs (field (currentSort sc)) "price").
  - f_equal. rewrite sortByPrice_array. unfold sortByPrice.
    destruct (notACollection v); [reflexivity|].
    apply sortWith_sorted_id.
    apply sortWith_sorted, priceCompare_consistent.
  - destruct (fieldIs (field (currentSort sc)) "title"); [|reflexivity].
    f_equal. rewrite sortByName_array. unfold sortByName.
    destruct (notACollection v); [reflexivity|].
    apply sortWith_sorted_id.
    apply sortWith_sorted, nameCompare_consistent.
Qed.

Lemma filter_as_list_filter sf t :
  exists keep : Product -> bool,
    forall ps, filter sf (JsArray ps) t = List.filter keep ps.
Proof.
  unfold filter.
  set (t' := match t with
             | TermUndefined => TermString (searchTerm sf)
             | _ => t
             end).
  cbn [notACollection truthy isArray negb orb elements].
  destruct (noTerm t') eqn:Hno.
  - exists (fun _ => true). intros ps. symmetry.
    apply forallb_filter_id, forallb_forall. reflexivity.
  - destruct t' as [| |s]; try discriminate. eauto.
Qed.

(** X12. Searching and sorting may be done in either order: sorting the
    search results gives what searching the sorted collection gives. *)
Theorem search_and_sort_commute (sf : SearchFilter) (sc : SortController)
    (ps : list Product) (term : JsTerm) :
  applySorting sc (JsArray (filter sf (JsArray ps) term)) =
  JsArray (filter sf (applySorting sc (JsArray ps)) term).
Proof.
  destruct (filter_as_list_filter sf term) as [keep Hkeep].
  unfold applySorting.
  destruct (noField (field (currentSort sc))); [reflexivity|].
  destruct (fieldIs (field (currentSort sc)) "price").
  - f_equal. rewrite !Hkeep, !sortByPrice_array. symmetry.
    apply filter_sortWith, priceCompare_consistent.
  - destruct (fieldIs (field (currentSort sc)) "title"); [|reflexivity].
    f_equal. rewrite !Hkeep, !sortByName_array. symmetry.
    apply filter_sortWith, nameCompare_consistent.
Qed.

End HostSortMoreFacts.

(** ** More on searching *)

Lemma append_assoc_string a b c : (a +:+ b) +:+ c = a +:+ (b +:+ c).
Proof.
  induction a as [|x a IH]; [reflexivity|].
  rewrite !append_String. now rewrite IH.
Qed.

Lemma isSubstring_trans a b c :
  isSubstring a b -> isSubstring b c -> isSubstring a c.
Proof.
  intros (pre1 & post1 & ->) (pre2 & post2 & ->).
  exists (pre2 +:+ pre1), (post1 +:+ post2).
  now rewrite !append_assoc_string.
Qed.

Lemma filter_filter_implied {A : Type} (f g : A -> bool) (l : list A) :
  (forall x, g x = true -> f x = true) ->
  List.filter g (List.filter f l) = List.filter g l.
Proof.
  intros Himp. induction l as [|x l IH]; simpl; [reflexivity|].
  destruct (f x) eqn:Hf; simpl.
  - now rewrite IH.
  - destruct (g x) eqn:Hg; [|exact IH].
    apply Himp in Hg. congruence.
Qed.

Section HostSearchFacts.
Context `{StringHost}.

Lemma toLowerCase_nonempty_inv s :
  s <> EmptyString -> toLowerCase s <> EmptyString.
Proof. intros Hs Hlow. now apply toLowerCase_nonempty in Hlow. Qed.

(** X13. Typing on narrows the results: when the first term, in lower
    case, occurs in the second, the products found for the second term are
    found among those found for the first, so searching for the second
    term within the results of the first gives what searching the whole
    collection gives.  In particular searching twice for a term gives what
    searching once gives. *)
Theorem longer_term_narrows_results (sf : SearchFilter) (ps : list Product)
    (t1 t2 : string) :
  t1 <> EmptyString ->
  isSubstring (toLowerCase t1) (toLowerCase t2) ->
  filter sf (JsArray (filter sf (JsArray ps) (TermString t1))) (TermString t2) =
    filter sf (JsArray ps) (TermString t2) /\
  sublist (filter sf (JsArray ps) (TermString t2))
          (filter sf (JsArray ps) (TermString t1)) /\
  filter sf (JsArray (filter sf (JsArray ps) (TermString t1))) (TermString t1) =
    filter sf (JsArray ps) (TermString t1).
Proof.
  intros Ht1 Hsub.
  assert (Ht2 : t2 <> EmptyString).
  { intros ->. rewrite toLowerCase_empty in Hsub.
    apply isSubstring_of_empty in Hsub.
    now apply toLowerCase_nonempty_inv in Ht1. }
  rewrite !filter_nonempty_term by assumption.
  assert (Himp : forall p, titleMatches (toLowerCase t2) p = true ->
                           titleMatches (toLowerCase t1) p = true).
  { intros p. rewrite !titleMatches_spec by assumption.
    intros (t & Ht & Hin). exists t. split; [exact Ht|].
    exact (isSubstring_trans _ _ _ Hsub Hin). }
  split; [now apply filter_filter_implied|].
  split.
  - rewrite <- (filter_filter_implied _ _ ps Himp). apply filter_bool_sublist.
  - now apply filter_filter_implied.
Qed.

(** X14. The search does not tell the letter case of the term: two terms
    that are the same in lower case find the same products. *)
Theorem search_ignores_case_of_term (sf : SearchFilter) (v : JsValue)
    (t1 t2 : string) :
  toLowerCase t1 = toLowerCase t2 ->
  filter sf v (TermString t1) = filter sf v (TermString t2).
Proof.
  intros Hlow. unfold filter.
  destruct (notACollection v); [reflexivity|].
  assert (Hempty : isEmptyString t1 = isEmptyString t2).
  { destruct (isEmptyString t1) eqn:H1, (isEmptyString t2) eqn:H2;
      try reflexivity.
    - apply isEmptyString_true in H1. subst t1.
      rewrite toLowerCase_empty in Hlow. symmetry in Hlow.
      apply toLowerCase_nonempty in Hlow. subst t2. discriminate.
    - apply isEmptyString_true in H2. subst t2.
      rewrite toLowerCase_empty in Hlow.
      apply toLowerCase_nonempty in Hlow. subst t1. discriminate. }
  unfold noTerm. rewrite Hempty, Hlow. reflexivity.
Qed.

(** X15. Toggling the field that is already the sort field twice brings
    the sort state back; toggling any other field makes it the sort field
    in ascending direction. *)
Theorem toggleSort_flips_or_restarts (sc : SortController) (f : string) :
  (field (currentSort sc) = Some f ->
   direction (currentSort (fst (toggleSort sc f))) =
     flipDirection (direction (currentSort sc)) /\
   fst (toggleSort (fst (toggleSort sc f)) f) = sc) /\
  (field (currentSort sc) <> Some f ->
   currentSort (fst (toggleSort sc f)) = {| field := Some f; direction := Asc |}).
Proof.
  destruct sc as [[fld dir]]. unfold toggleSort, fieldIs. cbn. split.
  - intros ->. rewrite !String.eqb_refl. cbn. rewrite String.eqb_refl. cbn.
    split; [reflexivity|]. destruct dir; reflexivity.
  - intros Hne. destruct fld as [s|]; [|reflexivity].
    destruct (String.eqb_spec s f); [congruence | reflexivity].
Qed.

Lemma updateSortButtons_price sc :
  field (currentSort sc) = Some "price" ->
  updateSortButtons sc =
  {| sortPriceBtn :=
       {| buttonActive := true;
          buttonText := "Sắp xếp theo giá " +:+
                        match direction (currentSort sc) with
                        | Asc => "↑" | Desc => "↓" end |};
     sortNameBtn := {| buttonActive := false;
                       buttonText := "Sắp xếp theo tên" |} |}.
Proof. unfold updateSortButtons. now intros ->. Qed.

Lemma updateSortButtons_title sc :
  field (currentSort sc) = Some "title" ->
  updateSortButtons sc =
  {| sortPriceBtn := {| buttonActive := false;
                        buttonText := "Sắp xếp theo giá" |};
     sortNameBtn :=
       {| buttonActive := true;
          buttonText := "Sắp xếp theo tên " +:+
                        match direction (currentSort sc) with
                        | Asc => "↑" | Desc => "↓" end |} |}.
Proof. unfold updateSortButtons. now intros ->. Qed.

(** X16. After a click on a sort button, that button and no other is
    active, and it carries the arrow of the direction the click has set:
    up when the click has chosen a new field, and the opposite of the
    arrow before when the field was already the sort field. *)
Theorem clicked_sort_button_is_the_active_one (sc : SortController)
    (f : string) :
  f = "price" \/ f = "title" ->
  let sc' := fst (toggleSort sc f) in
  let buttons := updateSortButtons sc' in
  let arrow := match direction (currentSort sc') with
               | Asc => "↑" | Desc => "↓" end in
  (buttonActive (sortPriceBtn buttons) = true <-> f = "price") /\
  (buttonActive (sortNameBtn buttons) = true <-> f = "title") /\
  (f = "price" ->
   buttonText (sortPriceBtn buttons) = "Sắp xếp theo giá " +:+ arrow /\
   buttonText (sortNameBtn buttons) = "Sắp xếp theo tên") /\
  (f = "title" ->
   buttonText (sortNameBtn buttons) = "Sắp xếp theo tên " +:+ arrow /\
   buttonText (sortPriceBtn buttons) = "Sắp xếp theo giá") /\
  direction (currentSort sc') =
    (if fieldIs (field (currentSort sc)) f
     then flipDirection (direction (currentSort sc)) else Asc).
Proof.
  intros Hf. cbn zeta.
  pose proof (toggleSort_field sc f) as Hfield.
  assert (Hdir : direction (currentSort (fst (toggleSort sc f))) =
                 if fieldIs (field (currentSort sc)) f
                 then flipDirection (direction (currentSort sc)) else Asc)
    by (unfold toggleSort; cbn [fst currentSort];
        destruct (fieldIs (field (currentSort sc)) f); reflexivity).
  destruct Hf as [-> | ->].
  - rewrite (updateSortButtons_price _ Hfield). cbn.
    repeat split; try congruence; try discriminate. exact Hdir.
  - rewrite (updateSortButtons_title _ Hfield). cbn.
    repeat split; try congruence; try discriminate. exact Hdir.
Qed.

End HostSearchFacts.

(** ** The states the dashboard reaches *)

Lemma updateDisplay_twice c : updateDisplay (updateDisplay c) = updateDisplay c.
Proof.
  unfold updateDisplay.
  pose proof (getPagedData_twice (paginationController c) (filteredProducts c))
    as Htwice.
  destruct (getPagedData (paginationController c) (filteredProducts c))
    as [pc page] eqn:Hg.
  cbn [fst paginationController filteredProducts] in *.
  now rewrite Htwice.
Qed.

Lemma updateDisplay_pageSize c :
  pageSize (paginationController (updateDisplay c)) =
  pageSize (paginationController c).
Proof.
  unfold updateDisplay, getPagedData.
  destruct (notACollection (filteredProducts c)); reflexivity.
Qed.

Lemma updateDisplay_filteredProducts c :
  filteredProducts (updateDisplay c) = filteredProducts c.
Proof.
  unfold updateDisplay.
  destruct (getPagedData (paginationController c) (filteredProducts c)).
  reflexivity.
Qed.

Lemma updateDisplay_atRest c :
  In (pageSize (paginationController c)) validSizes ->
  isArray (filteredProducts c) = true ->
  atRest (updateDisplay c).
Proof.
  intros Hsize Harr. unfold atRest.
  rewrite updateDisplay_pageSize, updateDisplay_filteredProducts.
  auto using updateDisplay_twice.
Qed.

Lemma withPagination_same c : withPagination c (paginationController c) = c.
Proof. now destruct c. Qed.

Section HostReachFacts.
Context `{StringHost}.

Lemma filterAndSort_isArray c : isArray (filterAndSort c) = true.
Proof.
  unfold filterAndSort.
  destruct (negb (isEmptyString (getSearchTerm (searchFilter c))));
    match goal with
    | |- isArray (applySorting ?sc (JsArray ?l)) = true =>
        destruct (applySorting_array sc l) as [sorted ->]
    end; reflexivity.
Qed.

Lemma applyFilters_atRest c :
  In (pageSize (paginationController c)) validSizes -> atRest (applyFilters c).
Proof.
  intros Hsize. unfold applyFilters.
  apply updateDisplay_atRest; [exact Hsize | apply filterAndSort_isArray].
Qed.

Lemma goToPage_fired_atRest c n pc' :
  atRest c ->
  goToPage (paginationController c) n = (pc', true) ->
  atRest (updateDisplay (withPagination c pc')).
Proof.
  intros (Hsize & Harr & _) Hgo. apply updateDisplay_atRest; [|exact Harr].
  unfold goToPage in Hgo.
  destruct ((n <? 1) || (n >? totalPages (paginationController c)));
    [discriminate|].
  injection Hgo as <-. exact Hsize.
Qed.

Lemma goToPage_not_fired c n pc' :
  goToPage (paginationController c) n = (pc', false) ->
  withPagination c pc' = c.
Proof.
  unfold goToPage.
  destruct ((n <? 1) || (n >? totalPages (paginationController c)));
    [|discriminate].
  intros [= <-]. apply withPagination_same.
Qed.

Lemma handle_goToPage_atRest c n :
  atRest c ->
  atRest (let '(pc', fired) := goToPage (paginationController c) n in
          notify fired (onPageChange initializeComponents)
            (withPagination c pc')).
Proof.
  intros Hc. destruct (goToPage (paginationController c) n) as [pc' fired] eqn:Hgo.
  destruct fired; cbn.
  - now apply (goToPage_fired_atRest c n).
  - now rewrite (goToPage_not_fired c n pc' Hgo).
Qed.

Lemma handle_atRest c ev : atRest c -> atRest (handle c ev).
Proof.
  intros Hc. pose proof Hc as (Hsize & Harr & Hshown).
  destruct ev as [value| | |n| | |size|[fetched|]]; cbn [handle].
  - apply applyFilters_atRest. exact Hsize.
  - cbn. apply applyFilters_atRest. exact Hsize.
  - cbn. apply applyFilters_atRest. exact Hsize.
  - now apply handle_goToPage_atRest.
  - destruct (currentPage (paginationController c) >? 1); [|exact Hc].
    now apply handle_goToPage_atRest.
  - destruct (currentPage (paginationController c) <?
              totalPages (paginationController c)); [|exact Hc].
    now apply handle_goToPage_atRest.
  - unfold changePageSize.
    destruct (arrayIncludes validSizes size) eqn:Hvalid; cbn.
    + apply applyFilters_atRest. cbn.
      unfold arrayIncludes in Hvalid. apply existsb_exists in Hvalid.
      destruct Hvalid as (x & Hx & Heq). apply Z.eqb_eq in Heq. now subst.
    + now rewrite withPagination_same.
  - apply applyFilters_atRest. exact Hsize.
  - exact Hc.
Qed.

Lemma run_atRest evs : atRest (run evs).
Proof.
  unfold run.
  assert (H0 : atRest newDashboardController).
  { split; [right; left; reflexivity|]. split; reflexivity. }
  revert H0. generalize newDashboardController.
  induction evs as [|ev evs IH]; intros c Hc; simpl; [exact Hc|].
  apply IH, handle_atRest, Hc.
Qed.

End HostReachFacts.

Lemma atRest_getPagedData c :
  atRest c ->
  getPagedData (paginationController c) (filteredProducts c) =
  (paginationController c, currentPageProducts c).
Proof.
  intros (_ & _ & Hshown). unfold updateDisplay in Hshown.
  destruct (getPagedData (paginationController c) (filteredProducts c))
    as [pc page].
  rewrite <- Hshown. reflexivity.
Qed.

Lemma validSizes_positive size : In size validSizes -> 0 < size.
Proof. unfold validSizes. simpl. intros [<-|[<-|[<-|[]]]]; lia. Qed.

(** What the pagination state holds at rest. *)
Lemma atRest_pagination c :
  atRest c ->
  exists shown,
    filteredProducts c = JsArray shown /\
    0 < pageSize (paginationController c) /\
    totalItems (paginationController c) = Z.of_nat (length shown) /\
    totalPages (paginationController c) =
      ceilDiv (Z.of_nat (length shown)) (pageSize (paginationController c)) /\
    currentPage (paginationController c) =
      settledPage (currentPage (paginationController c))
        (totalPages (paginationController c)) /\
    currentPageProducts c =
      take (Z.to_nat (pageSize (paginationController c)))
        (drop (Z.to_nat ((currentPage (paginationController c) - 1)
                         * pageSize (paginationController c))) shown).
Proof.
  intros Hc. pose proof (atRest_getPagedData c Hc) as Hg.
  destruct Hc as (Hsize & Harr & _).
  apply validSizes_positive in Hsize.
  destruct (filteredProducts c) as [| | | | |shown]; try discriminate.
  exists shown. split; [reflexivity|]. split; [exact Hsize|].
  pose proof (getPagedData_chunk (paginationController c) shown Hsize) as Hchunk.
  rewrite Hg in Hchunk. cbn [fst snd] in Hchunk.
  rewrite getPagedData_array in Hg. cbn zeta in Hg.
  injection Hg as Hpc _.
  pose proof (f_equal totalItems Hpc) as Hti.
  pose proof (f_equal totalPages Hpc) as Htp.
  pose proof (f_equal currentPage Hpc) as Hcp.
  cbn [totalItems totalPages currentPage] in Hti, Htp, Hcp.
  rewrite Htp in Hcp.
  repeat split; auto.
Qed.

Section HostReachTheorems.
Context `{StringHost}.

(** X17. In every state the dashboard reaches, whatever the events: the
    page size is 5, 10 or 20; the stored collection is an array, and
    [totalItems] is its length and [totalPages] the pages it takes; the
    current page is at least 1, and at most [totalPages] unless the
    collection is empty; the products on show are the slice of the current
    page; and [updateDisplay] would change nothing. *)
Theorem reached_states_are_at_rest (evs : list UIEvent) :
  let c := run evs in
  let pc := paginationController c in
  In (pageSize pc) validSizes /\
  (exists shown,
     filteredProducts c = JsArray shown /\
     totalItems pc = Z.of_nat (length shown) /\
     isCeilingOf (totalPages pc) (totalItems pc) (pageSize pc) /\
     (shown <> [] -> currentPage pc <= totalPages pc) /\
     currentPageProducts c =
       take (Z.to_nat (pageSize pc))
         (drop (Z.to_nat ((currentPage pc - 1) * pageSize pc)) shown)) /\
  1 <= currentPage pc /\
  updateDisplay c = c.
Proof.
  cbn zeta. pose proof (run_atRest evs) as Hc.
  destruct (atRest_pagination _ Hc)
    as (shown & Hf & Hps & Hti & Htp & Hcp & Hpage).
  split; [apply Hc|]. split.
  - exists shown. split; [exact Hf|]. split; [exact Hti|].
    split; [rewrite Htp, Hti; now apply ceilDiv_spec|].
    split; [|exact Hpage].
    intros Hne. rewrite Hcp. apply settledPage_le.
    pose proof (ceilDiv_spec (Z.of_nat (length shown)) _ Hps) as Hceil.
    unfold isCeilingOf in Hceil. rewrite <- Htp in Hceil.
    destruct shown; [congruence|]. simpl length in Hceil. nia.
  - split; [rewrite Hcp; apply settledPage_ge_1 | apply Hc].
Qed.

End HostReachTheorems.

Lemma StronglySorted_sublist {A : Type} (R : A -> A -> Prop) (l1 l2 : list A) :
  sublist l1 l2 -> StronglySorted R l2 -> StronglySorted R l1.
Proof.
  induction 1 as [|x l1 l2 Hsub IH|x l1 l2 Hsub IH]; intros Hs.
  - constructor.
  - apply StronglySorted_inv in Hs as [Hs Hall]. constructor; [auto|].
    rewrite Forall_forall in *. intros y Hy.
    apply Hall. eapply elem_of_sublist; eauto.
  - apply StronglySorted_inv in Hs as [Hs _]. auto.
Qed.

Lemma page_slice_sublist {A : Type} (l : list A) (n k : nat) :
  sublist (take n (drop k l)) l.
Proof. etransitivity; [apply sublist_take | apply sublist_drop]. Qed.

Section HostShowTheorems.
Context `{StringHost}.

Lemma applySorting_perm sc l sorted :
  applySorting sc (JsArray l) = JsArray sorted -> Permutation l sorted.
Proof.
  unfold applySorting.
  destruct (noField (field (currentSort sc))); [now intros [= <-]|].
  destruct (fieldIs (field (currentSort sc)) "price").
  - intros [= <-]. rewrite sortByPrice_array. apply sortWith_perm.
  - destruct (fieldIs (field (currentSort sc)) "title"); [|now intros [= <-]].
    intros [= <-]. rewrite sortByName_array. apply sortWith_perm.
Qed.

Lemma applySorting_price sc v :
  field (currentSort sc) = Some "price" ->
  applySorting sc v = JsArray (sortByPrice v (direction (currentSort sc))).
Proof. unfold applySorting. now intros ->. Qed.

Lemma applySorting_title sc v :
  field (currentSort sc) = Some "title" ->
  applySorting sc v = JsArray (sortByName v (direction (currentSort sc))).
Proof. unfold applySorting. now intros ->. Qed.

Lemma applySorting_none sc v :
  field (currentSort sc) = None -> applySorting sc v = v.
Proof. unfold applySorting. now intros ->. Qed.

(** The collection the search leaves, before sorting. *)
Lemma filterAndSort_found c shown :
  filterAndSort c = JsArray shown ->
  forall p, In p shown ->
    In p (products c) /\
    (searchTerm (searchFilter c) <> EmptyString ->
     titleContains (searchTerm (searchFilter c)) p).
Proof.
  unfold filterAndSort, getSearchTerm. intros Hfs p Hp.
  destruct (isEmptyString (searchTerm (searchFilter c))) eqn:Hterm;
    cbn [negb] in Hfs.
  - apply applySorting_perm in Hfs.
    apply isEmptyString_true in Hterm.
    split; [|congruence].
    eapply Permutation_in; [symmetry; exact Hfs | exact Hp].
  - apply applySorting_perm in Hfs.
    apply isEmptyString_false in Hterm.
    rewrite filter_nonempty_term in Hfs by exact Hterm.
    assert (Hin : In p (List.filter
                          (titleMatches (toLowerCase (searchTerm (searchFilter c))))
                          (products c)))
      by (eapply Permutation_in; [symmetry; exact Hfs | exact Hp]).
    apply filter_In in Hin as [Hin Hm].
    split; [exact Hin|]. intros _. now apply titleMatches_spec.
Qed.

(** X18. In every state the dashboard reaches, every product on show is a
    product of the catalog and, when a search term is set, its title
    contains the term, letter case apart; and no more products are on show
    than the page size. *)
Theorem products_on_show_are_found (evs : list UIEvent) :
  let c := run evs in
  (forall p, In p (currentPageProducts c) ->
     In p (products c) /\
     (searchTerm (searchFilter c) <> EmptyString ->
      titleContains (searchTerm (searchFilter c)) p)) /\
  Z.of_nat (length (currentPageProducts c)) <=
    pageSize (paginationController c).
Proof.
  cbn zeta. pose proof (run_atRest evs) as Hc.
  pose proof (run_upToDate evs) as Hup. unfold upToDate in Hup.
  destruct (atRest_pagination _ Hc)
    as (shown & Hf & Hps & Hti & Htp & Hcp & Hpage).
  rewrite Hf in Hup. symmetry in Hup. split.
  - intros p Hp. apply (filterAndSort_found _ shown Hup).
    rewrite Hpage in Hp. apply list_elem_of_In.
    apply list_elem_of_In in Hp.
    eapply elem_of_sublist; [exact Hp | apply page_slice_sublist].
  - rewrite Hpage, length_take. lia.
Qed.

(** X19. In every state the dashboard reaches, the products on show are in
    the order of the sort: by listed price along the direction, a missing
    price counting as 0, when the sort field is price, by title when it is
    title; with no sort field they are in the order of the catalog. *)
Theorem products_on_show_are_in_order (evs : list UIEvent) :
  let c := run evs in
  let cs := currentSort (sortController c) in
  (field cs = Some "price" ->
   StronglySorted (inPriceOrder (direction cs)) (currentPageProducts c)) /\
  (field cs = Some "title" ->
   StronglySorted (inOrder (nameCompare (direction cs)))
     (currentPageProducts c)) /\
  (field cs = None -> sublist (currentPageProducts c) (products c)).
Proof.
  cbn zeta. pose proof (run_atRest evs) as Hc.
  pose proof (run_upToDate evs) as Hup. unfold upToDate in Hup.
  destruct (atRest_pagination _ Hc)
    as (shown & Hf & Hps & Hti & Htp & Hcp & Hpage).
  rewrite Hf in Hup. symmetry in Hup. rewrite Hpage.
  unfold filterAndSort in Hup.
  split; [|split]; intros Hfield.
  - rewrite (applySorting_price _ _ Hfield) in Hup. injection Hup as <-.
    eapply StronglySorted_sublist; [apply page_slice_sublist|].
    match goal with
    | |- context [sortByPrice ?v ?d] =>
        destruct (isArray v) eqn:Hv;
        [destruct v; try discriminate; apply sortByPrice_in_price_order|]
    end.
    unfold sortByPrice. rewrite notACollection_isArray, Hv. constructor.
  - rewrite (applySorting_title _ _ Hfield) in Hup. injection Hup as <-.
    eapply StronglySorted_sublist; [apply page_slice_sublist|].
    match goal with
    | |- context [sortByName ?v ?d] =>
        destruct (isArray v) eqn:Hv;
        [destruct v; try discriminate; rewrite sortByName_array;
         apply sortWith_sorted, nameCompare_consistent|]
    end.
    unfold sortByName. rewrite notACollection_isArray, Hv. constructor.
  - rewrite (applySorting_none _ _ Hfield) in Hup.
    etransitivity; [apply page_slice_sublist|].
    destruct (isEmptyString (getSearchTerm (searchFilter (run evs))))
      eqn:Hterm; cbn [negb] in Hup; injection Hup as <-; [reflexivity|].
    unfold getSearchTerm in *. apply isEmptyString_false in Hterm.
    rewrite filter_nonempty_term by exact Hterm. apply filter_bool_sublist.
Qed.

Lemma pagination_eta pc :
  {| currentPage := currentPage pc; pageSize := pageSize pc;
     totalItems := totalItems pc; totalPages := totalPages pc |} = pc.
Proof. now destruct pc. Qed.

(** At rest, going to a page that exists shows that page. *)
Lemma atRest_goToPage c n :
  atRest c ->
  1 <= n <= totalPages (paginationController c) ->
  paginationController
    (updateDisplay (withPagination c (fst (goToPage (paginationController c) n)))) =
  {| currentPage := n; pageSize := pageSize (paginationController c);
     totalItems := totalItems (paginationController c);
     totalPages := totalPages (paginationController c) |}.
Proof.
  intros Hc Hn.
  destruct (atRest_pagination _ Hc)
    as (shown & Hf & Hps & Hti & Htp & Hcp & Hpage).
  rewrite (goToPage_in_range _ n Hn). cbn [fst].
  unfold updateDisplay, withPagination.
  cbn [paginationController filteredProducts]. rewrite Hf.
  rewrite getPagedData_array. cbn zeta.
  cbn [currentPage pageSize totalItems totalPages paginationController].
  rewrite <- Htp, <- Hti. now rewrite settledPage_in_range.
Qed.

(** X20. In a state the dashboard reaches in which a next page exists, a
    click on the next button followed by a click on the previous button
    brings the dashboard back to the state it was in; the click on the
    next button moves to the page after the current one. *)
Theorem next_then_previous_returns (evs : list UIEvent) :
  let c := run evs in
  currentPage (paginationController c) < totalPages (paginationController c) ->
  currentPage (paginationController (handle c NextClick)) =
    currentPage (paginationController c) + 1 /\
  handle (handle c NextClick) PrevClick = c.
Proof.
  cbn zeta. set (c := run evs). intros Hnext.
  pose proof (run_atRest evs) as Hc. fold c in Hc.
  destruct (atRest_pagination _ Hc)
    as (shown & Hf & Hps & Hti & Htp & Hcp & Hpage).
  assert (Hge : 1 <= currentPage (paginationController c))
    by (rewrite Hcp; apply settledPage_ge_1).
  set (pc := paginationController c) in *.
  assert (Hin : 1 <= currentPage pc + 1 <= totalPages pc) by lia.
  assert (Hnext_state :
            handle c NextClick =
            updateDisplay (withPagination c (fst (goToPage pc (currentPage pc + 1))))).
  { cbn [handle]. fold pc.
    replace (currentPage pc <? totalPages pc) with true
      by (symmetry; apply Z.ltb_lt; lia).
    rewrite (goToPage_in_range pc _ Hin). reflexivity. }
  pose proof (atRest_goToPage c _ Hc Hin) as Hpc1. fold pc in Hpc1.
  rewrite <- Hnext_state in Hpc1.
  split; [now rewrite Hpc1|].
  assert (Hsame : products (handle c NextClick) = products c /\
                  filteredProducts (handle c NextClick) = filteredProducts c /\
                  searchFilter (handle c NextClick) = searchFilter c /\
                  sortController (handle c NextClick) = sortController c).
  { rewrite Hnext_state. unfold updateDisplay, withPagination.
    cbn [paginationController filteredProducts products searchFilter
         sortController].
    destruct (getPagedData (fst (goToPage pc (currentPage pc + 1)))
                (filteredProducts c)); auto. }
  destruct Hsame as (Hp1 & Hf1 & Hs1 & Ho1).
  remember (handle c NextClick) as c1 eqn:Hc1. clear Hc1 Hnext_state.
  cbn [handle]. rewrite Hpc1. cbn [currentPage].
  replace (currentPage pc + 1 >? 1) with true
    by (symmetry; apply Z.gtb_lt; lia).
  replace (currentPage pc + 1 - 1) with (currentPage pc) by lia.
  rewrite goToPage_in_range by (cbn [totalPages]; lia).
  cbn [notify onPageChange initializeComponents invoke].
  unfold updateDisplay, withPagination.
  cbn [paginationController filteredProducts products searchFilter
       sortController currentPage pageSize totalItems totalPages].
  rewrite pagination_eta, Hp1, Hf1, Hs1, Ho1. subst pc.
  rewrite (atRest_getPagedData c Hc). now destruct c.
Qed.

End HostShowTheorems.

(** ** Reporting a failed fetch: the message *)

Lemma errorMessageFor_http_error n :
  errorMessageFor (newError ("HTTP error! status: " +:+ numberToString n)) =
  if 500 <=? n then serverErrorText
  else if 400 <=? n then clientErrorText
  else genericErrorText.
Proof.
  unfold errorMessageFor. cbn [errorName errorMessage newError].
  replace (String.eqb "Error" "TypeError") with false by reflexivity.
  cbn [andb].
  assert (Hhttp : includes ("HTTP error! status: " +:+ numberToString n)
                    "HTTP error" = true).
  { apply includes_spec.
    exists EmptyString, ("! status: " +:+ numberToString n). reflexivity. }
  rewrite Hhttp.
  destruct n as [|p|p]; unfold numberToString;
    cbn [Z.to_int NilZero.string_of_int].
  - vm_compute. reflexivity.
  - pose proof (DecimalPos.Unsigned.to_uint_nonnil p) as Hp.
    rewrite (string_of_uint_nonnil _ Hp).
    rewrite (matchStatus_http_error_digits _ Hp).
    unfold statusAtLeast. rewrite digitsToNumber_pos. reflexivity.
  - rewrite matchStatus_http_error_negative. reflexivity.
Qed.

(** X21. A response that is not [ok] makes [getAllProducts] throw the HTTP
    error and report it by its status: as a server error from 500 on, as
    an invalid request from 400 to 499, and with the general message
    below 400. *)
Theorem http_failure_is_reported_by_status (response : Response)
    (container : string) :
  ok response = false ->
  getAllProducts (FetchFulfilled response) container =
  (inl (newError ("HTTP error! status: " +:+ numberToString (status response))),
   errorMessageDiv
     (if 500 <=? status response then serverErrorText
      else if 400 <=? status response then clientErrorText
      else genericErrorText)).
Proof.
  intros Hok. unfold getAllProducts, tryGetAllProducts. rewrite Hok.
  cbn [negb]. unfold handleError, displayError.
  now rewrite errorMessageFor_http_error.
Qed.

(** X22. [getAllProducts] returns products exactly when the response is
    [ok] and its body is an array, and then leaves the error container
    alone; in every other case it throws and puts a message in the error
    container, the invalid-data message when the body of an [ok] response
    is not an array. *)
Theorem getAllProducts_returns_arrays_only (outcome : FetchOutcome)
    (container : string) :
  (forall fetched,
     fst (getAllProducts outcome container) = inr fetched <->
     exists response,
       outcome = FetchFulfilled response /\ ok response = true /\
       json response = inr (JsArray fetched)) /\
  (forall fetched,
     fst (getAllProducts outcome container) = inr fetched ->
     snd (getAllProducts outcome container) = container) /\
  (forall error,
     fst (getAllProducts outcome container) = inl error ->
     snd (getAllProducts outcome container) =
       errorMessageDiv (errorMessageFor error)) /\
  (forall response v,
     outcome = FetchFulfilled response -> ok response = true ->
     json response = inr v -> isArray v = false ->
     snd (getAllProducts outcome container) = errorMessageDiv invalidDataText).
Proof.
  unfold getAllProducts.
  split; [|split; [|split]].
  - intros fetched. split.
    + destruct outcome as [e|response]; cbn; [discriminate|].
      destruct (ok response) eqn:Hok; cbn; [|discriminate].
      destruct (json response) as [e|v] eqn:Hjson; cbn; [discriminate|].
      destruct v; cbn; try discriminate.
      intros [= <-]. eauto.
    + intros (response & -> & Hok & Hjson). cbn. now rewrite Hok, Hjson.
  - intros fetched. destruct (tryGetAllProducts outcome); cbn;
      [discriminate | reflexivity].
  - intros error. destruct (tryGetAllProducts outcome); cbn;
      [now intros [= ->] | discriminate].
  - intros response v -> Hok Hjson Hv. cbn. rewrite Hok, Hjson. cbn.
    rewrite Hv. reflexivity.
Qed.

(** ** The table *)

Lemma restyle_rendered_row p i :
  {| rowClassList :=
       if (Z.of_nat i mod 2 =? 0)
       then classListAdd "table-row-light"
              (classListRemove ["table-row-light"; "table-row-dark"]
                 (rowClassList (renderRow p i)))
       else classListAdd "table-row-dark"
              (classListRemove ["table-row-light"; "table-row-dark"]
                 (rowClassList (renderRow p i)));
     imageCell := imageCell (renderRow p i);
     titleCellText := titleCellText (renderRow p i);
     priceCellText := priceCellText (renderRow p i);
     descriptionCellText := descriptionCellText (renderRow p i);
     descriptionCellTitle := descriptionCellTitle (renderRow p i);
     categoryCellText := categoryCellText (renderRow p i) |} = renderRow p i.
Proof.
  unfold renderRow. cbn [rowClassList imageCell titleCellText priceCellText
                         descriptionCellText descriptionCellTitle
                         categoryCellText].
  destruct (Z.of_nat i mod 2 =? 0); reflexivity.
Qed.

Lemma applyAlternatingRowStyles_rendered ps :
  applyAlternatingRowStyles (imap (fun index product => renderRow product index) ps)
  = imap (fun index product => renderRow product index) ps.
Proof.
  apply list_eq. intros i. unfold applyAlternatingRowStyles.
  rewrite !list_lookup_imap.
  destruct (ps !! i) as [p|]; [|reflexivity]. cbn.
  f_equal. apply restyle_rendered_row.
Qed.

Lemma renderTable_body_length this ps :
  length (tableBody (renderTable this ps)) = length ps /\
  loadingDisplay (renderTable this ps) = "none".
Proof.
  destruct ps as [|p ps]; [split; reflexivity|].
  unfold renderTable. cbn [tableBody loadingDisplay].
  rewrite applyAlternatingRowStyles_rendered, length_imap. split; reflexivity.
Qed.

(** X23. [renderTable] puts one row for each product, in order, the row of
    the product at its index; the rows are light at the even indices and
    dark at the odd ones, and the pass that applies the alternating styles
    leaves them as [renderRow] made them.  The loading indicator is
    hidden; the table is shown when there are products, and the
    no-results message when there are none. *)
Theorem renderTable_rows (this : TableRenderer) (ps : list Product) :
  let rendered := renderTable this ps in
  tableBody rendered = imap (fun index product => renderRow product index) ps /\
  length (tableBody rendered) = length ps /\
  (forall i row, tableBody rendered !! i = Some row ->
     rowClassList row =
       [if Nat.even i then "table-row-light" else "table-row-dark"]) /\
  loadingDisplay rendered = "none" /\
  (ps = [] -> tableDisplay rendered = "none" /\
              noResultsDisplay rendered = "block") /\
  (ps <> [] -> tableDisplay rendered = "table" /\
               noResultsDisplay rendered = "none").
Proof.
  cbn zeta.
  assert (Hbody : tableBody (renderTable this ps) =
                  imap (fun index product => renderRow product index) ps).
  { destruct ps as [|p ps]; [reflexivity|].
    unfold renderTable. cbn [tableBody].
    apply applyAlternatingRowStyles_rendered. }
  split; [exact Hbody|]. rewrite Hbody.
  split; [apply length_imap|]. split.
  - intros i row Hrow. rewrite list_lookup_imap in Hrow.
    destruct (ps !! i) as [p|]; [|discriminate].
    injection Hrow as <-. unfold renderRow. cbn [rowClassList].
    destruct (Nat.even i) eqn:Heven.
    + apply Nat.even_spec in Heven. destruct Heven as [k ->].
      replace (Z.of_nat (2 * k) mod 2) with 0; [reflexivity|].
      rewrite Nat2Z.inj_mul, Z.mul_comm. symmetry. apply Z.mod_mul. lia.
    + assert (Hodd : Nat.odd i = true)
        by (rewrite <- Nat.negb_even, Heven; reflexivity).
      apply Nat.odd_spec in Hodd. destruct Hodd as [k ->].
      replace (Z.of_nat (2 * k + 1) mod 2) with 1; [reflexivity|].
      rewrite Nat2Z.inj_add, Nat2Z.inj_mul, Z.add_comm, Z.mul_comm.
      rewrite Z.mod_add by lia. reflexivity.
  - split; [now destruct ps|].
    split; [now intros ->|]. destruct ps; [congruence | auto].
Qed.

Section HostInitTheorems.
Context `{StringHost}.

(** X24. [init()] when the fetch fails leaves the state of the dashboard as
    it was, reports the failure in the error container, hides the table
    and shows the could-not-load message in the loading container.  When
    the fetch brings products, the state is the one of [applyFilters] on
    them, the error container is empty, the loading indicator is hidden
    and the table has a row for each product on show. *)
Theorem init_shows_the_outcome (this : DashboardController) (screen : Screen)
    (outcome : FetchOutcome) :
  let result := init this screen outcome in
  (forall error,
     tryGetAllProducts outcome = inl error ->
     fst result = this /\
     errorContainer (snd result) = errorMessageDiv (errorMessageFor error) /\
     tableDisplay (tableRenderer (snd result)) = "none" /\
     loadingDisplay (tableRenderer (snd result)) = "block" /\
     loadingHTML (tableRenderer (snd result)) =
       errorMessageDiv "Không thể tải dữ liệu sản phẩm. Vui lòng thử lại sau." /\
     paginationView (snd result) = paginationView screen) /\
  (forall fetched,
     tryGetAllProducts outcome = inr fetched ->
     fst result = handle this (FetchResolved (Some fetched)) /\
     products (fst result) = fetched /\
     errorContainer (snd result) = EmptyString /\
     loadingDisplay (tableRenderer (snd result)) = "none" /\
     length (tableBody (tableRenderer (snd result))) =
       length (currentPageProducts (fst result))).
Proof.
  cbn zeta. unfold init, getAllProducts. split.
  - intros error ->. cbn. repeat split; reflexivity.
  - intros fetched ->. cbn [fst snd handle].
    split; [reflexivity|].
    split.
    { unfold applyFilters, updateDisplay. cbn [paginationController
        filteredProducts].
      match goal with
      | |- context [getPagedData ?p ?d] => destruct (getPagedData p d)
      end. reflexivity. }
    unfold displayOn. cbn [errorContainer tableRenderer].
    split; [reflexivity|].
    match goal with
    | |- context [renderTable ?t ?ps] =>
        destruct (renderTable_body_length t ps) as (Hlen & Hload)
    end.
    split; [exact Hload | exact Hlen].
Qed.

End HostInitTheorems.

(** ** Page size and sort clicks *)

Lemma settledPage_first tp : 0 <= tp -> settledPage 1 tp = 1.
Proof.
  intros Htp. unfold settledPage.
  destruct (Z.gtb_spec 1 tp); destruct (Z.gtb_spec tp 0); cbn; try reflexivity.
  lia.
Qed.

Lemma getPagedData_state_by_length pc l l' :
  length l = length l' ->
  fst (getPagedData pc (JsArray l)) = fst (getPagedData pc (JsArray l')).
Proof. intros Hlen. rewrite !getPagedData_array. cbn. now rewrite Hlen. Qed.

Section HostClickTheorems.
Context `{StringHost}.

Lemma filterAndSort_withPagination c pc :
  filterAndSort (withPagination c pc) = filterAndSort c.
Proof. reflexivity. Qed.

(** X25. In a state the dashboard reaches, choosing one of the page sizes
    5, 10 and 20 keeps the collection and shows its first page: the
    current page is 1 and the products on show are the first [size]
    products of the collection. *)
Theorem page_size_change_shows_first_page (evs : list UIEvent) (size : Z) :
  size = 5 \/ size = 10 \/ size = 20 ->
  let c := run evs in
  let c' := handle c (PageSizeSelect size) in
  filteredProducts c' = filteredProducts c /\
  pageSize (paginationController c') = size /\
  currentPage (paginationController c') = 1 /\
  currentPageProducts c' =
    take (Z.to_nat size) (elements (filteredProducts c)).
Proof.
  intros Hsize. cbn zeta. set (c := run evs).
  pose proof (run_atRest evs) as Hc. fold c in Hc.
  pose proof (run_upToDate evs) as Hup. fold c in Hup. unfold upToDate in Hup.
  destruct (atRest_pagination _ Hc)
    as (shown & Hf & Hps & Hti & Htp & Hcp & Hpage).
  assert (Hpos : 0 < size) by lia.
  cbn [handle]. rewrite (changePageSize_valid _ size Hsize).
  cbn [notify onPageSizeChange initializeComponents invoke].
  unfold applyFilters. rewrite filterAndSort_withPagination, <- Hup, Hf.
  unfold updateDisplay, withPagination.
  cbn [paginationController filteredProducts].
  rewrite getPagedData_array. cbn zeta.
  cbn [currentPage pageSize totalItems totalPages filteredProducts
       paginationController currentPageProducts elements].
  rewrite settledPage_first by (apply ceilDiv_nonneg; lia).
  split; [reflexivity|]. split; [reflexivity|]. split; [reflexivity|].
  replace ((1 - 1) * size) with 0 by lia.
  rewrite (slice_from shown 0 size) by lia. reflexivity.
Qed.

(** X26. In a state the dashboard reaches, a click on a sort button
    rearranges the collection and nothing else: the collection after the
    click is a permutation of the one before, and the page number, the
    page size and the totals stay. *)
Theorem sort_click_only_rearranges (evs : list UIEvent) (ev : UIEvent) :
  ev = SortPriceClick \/ ev = SortNameClick ->
  let c := run evs in
  let c' := handle c ev in
  Permutation (elements (filteredProducts c)) (elements (filteredProducts c')) /\
  paginationController c' = paginationController c /\
  products c' = products c /\
  searchFilter c' = searchFilter c.
Proof.
  intros Hev. cbn zeta. set (c := run evs).
  pose proof (run_atRest evs) as Hc. fold c in Hc.
  pose proof (run_upToDate evs) as Hup. fold c in Hup. unfold upToDate in Hup.
  pose proof (atRest_getPagedData c Hc) as Hg.
  assert (Hform : exists sc,
             handle c ev = applyFilters (withSort c sc))
    by (destruct Hev as [-> | ->]; cbn; eauto).
  destruct Hform as [sc ->].
  unfold applyFilters, updateDisplay.
  cbn [paginationController filteredProducts withSort].
  set (base := if negb (isEmptyString (getSearchTerm (searchFilter c)))
               then JsArray (filter (searchFilter c) (JsArray (products c))
                               (TermString (getSearchTerm (searchFilter c))))
               else JsArray (products c)).
  assert (Hbase : exists l, base = JsArray l)
    by (subst base; destruct (negb _); eauto).
  destruct Hbase as [l Hl].
  assert (Hnew : filterAndSort (withSort c sc) = applySorting sc (JsArray l))
    by (unfold filterAndSort; cbn [products searchFilter sortController withSort];
        fold base; now rewrite Hl).
  assert (Hold : filteredProducts c = applySorting (sortController c) (JsArray l))
    by (rewrite Hup; unfold filterAndSort; fold base; now rewrite Hl).
  destruct (applySorting_array sc l) as [after Hafter].
  destruct (applySorting_array (sortController c) l) as [before Hbefore].
  rewrite Hnew, Hafter. rewrite Hold, Hbefore in Hg |- *.
  assert (Hperm : Permutation before after).
  { apply applySorting_perm in Hafter, Hbefore.
    etransitivity; [symmetry; exact Hbefore | exact Hafter]. }
  pose proof (getPagedData_state_by_length (paginationController c)
                before after (Permutation_length Hperm)) as Hstate.
  rewrite Hg in Hstate. cbn [fst] in Hstate.
  destruct (getPagedData (paginationController c) (JsArray after))
    as [pc' page'].
  cbn [fst] in Hstate. subst pc'. cbn. auto.
Qed.

End HostClickTheorems.

(** ** The further properties on the sample data *)

(** On page 3 of 3 the page numbers rise. *)
Lemma page_buttons_increasing_and_accepted_witness :
  1 <= currentPage Samples.onPage3 <= totalPages Samples.onPage3 /\
  StronglySorted Z.lt (pageNumbers (renderPageNumbers Samples.onPage3)).
Proof.
  assert (Hcp : 1 <= currentPage Samples.onPage3 <= totalPages Samples.onPage3)
    by (cbn; lia).
  split; [exact Hcp|].
  exact (proj1 (page_buttons_increasing_and_accepted Samples.onPage3 Hcp)).
Defined.

(** On page 5 of 10 the button of page 5 is the active one. *)
Lemma one_active_page_button_witness :
  1 <= currentPage Scenes.onPage5of10 <= totalPages Scenes.onPage5of10 /\
  activePageNumbers (renderPageNumbers Scenes.onPage5of10) = [5].
Proof.
  assert (Hcp : 1 <= currentPage Scenes.onPage5of10
                  <= totalPages Scenes.onPage5of10) by (cbn; lia).
  split; [exact Hcp|].
  exact (one_active_page_button Scenes.onPage5of10 Hcp).
Defined.

(** On page 5 of 10 pages are skipped and an ellipsis says so. *)
Lemma ellipsis_marks_skipped_pages_witness :
  1 <= currentPage Scenes.onPage5of10 <= totalPages Scenes.onPage5of10 /\
  (EllipsisSpan ∈ renderPageNumbers Scenes.onPage5of10 <->
   exists n, 1 <= n <= totalPages Scenes.onPage5of10 /\
             n ∉ pageNumbers (renderPageNumbers Scenes.onPage5of10)).
Proof.
  assert (Hcp : 1 <= currentPage Scenes.onPage5of10
                  <= totalPages Scenes.onPage5of10) by (cbn; lia).
  split; [exact Hcp|].
  exact (ellipsis_marks_skipped_pages Scenes.onPage5of10 Hcp).
Defined.

(** The three pages of the sample catalog make it up. *)
Lemma pages_make_up_the_collection_witness :
  0 < pageSize Samples.onPage3 /\
  concat (map (pageShownAt
                 (fst (getPagedData Samples.onPage3 (JsArray Samples.catalog23)))
                 Samples.catalog23)
            (seqZ 1 (totalPages
                       (fst (getPagedData Samples.onPage3
                               (JsArray Samples.catalog23)))))) =
  Samples.catalog23.
Proof.
  assert (Hps : 0 < pageSize Samples.onPage3) by reflexivity.
  split; [exact Hps|].
  exact (pages_make_up_the_collection Samples.onPage3 Samples.catalog23 Hps).
Defined.

(** The last page of the sample catalog holds three products. *)
Lemma pages_are_full_but_the_last_witness :
  0 < pageSize Samples.onPage3 /\
  1 <= 3 <= totalPages (fst (getPagedData Samples.onPage3
                               (JsArray Samples.catalog23))) /\
  1 <= Z.of_nat (length (pageShownAt
                           (fst (getPagedData Samples.onPage3
                                   (JsArray Samples.catalog23)))
                           Samples.catalog23 3))
    <= pageSize Samples.onPage3.
Proof.
  assert (Hps : 0 < pageSize Samples.onPage3) by reflexivity.
  assert (Hn : 1 <= 3 <= totalPages (fst (getPagedData Samples.onPage3
                                            (JsArray Samples.catalog23))))
    by (vm_compute; split; discriminate).
  split; [exact Hps|]. split; [exact Hn|].
  exact (proj2 (proj2 (pages_are_full_but_the_last Samples.onPage3
                         Samples.catalog23 3 Hps Hn))).
Defined.

(** The info line on page 3 of the sample catalog. *)
Lemma info_line_names_the_items_shown_witness :
  0 < pageSize Samples.onPage3 /\
  Samples.catalog23 <> [] /\
  Z.of_nat (length (snd (getPagedData Samples.onPage3
                           (JsArray Samples.catalog23)))) =
  endItem (fst (getPagedData Samples.onPage3 (JsArray Samples.catalog23))) -
  startItem (fst (getPagedData Samples.onPage3 (JsArray Samples.catalog23))) + 1.
Proof.
  assert (Hps : 0 < pageSize Samples.onPage3) by reflexivity.
  assert (Hne : Samples.catalog23 <> [])
    by (intros E; vm_compute in E; discriminate E).
  split; [exact Hps|]. split; [exact Hne|].
  exact (proj1 (proj2 (proj2 (info_line_names_the_items_shown
                                Samples.onPage3 Samples.catalog23 Hps Hne)))).
Defined.

(** The wardrobe fits on a page of ten: no controls. *)
Lemma controls_hidden_when_one_page_suffices_witness :
  0 < pageSize Samples.onPage3 /\
  (Z.of_nat (length Samples.wardrobe) <= pageSize Samples.onPage3 ->
   containerDisplay
     (renderControls (fst (getPagedData Samples.onPage3 (JsArray Samples.wardrobe)))
        {| containerDisplay := "flex"; infoText := EmptyString; controls := [] |})
   = "none" /\
   controls
     (renderControls (fst (getPagedData Samples.onPage3 (JsArray Samples.wardrobe)))
        {| containerDisplay := "flex"; infoText := EmptyString; controls := [] |})
   = []).
Proof.
  assert (Hps : 0 < pageSize Samples.onPage3) by reflexivity.
  split; [exact Hps|].
  exact (proj1 (controls_hidden_when_one_page_suffices Samples.onPage3
                  Samples.wardrobe
                  {| containerDisplay := "flex"; infoText := EmptyString;
                     controls := [] |} Hps)).
Defined.

(** The wardrobe by rising price is what [sortByPrice] returns. *)
Lemma sortByPrice_is_the_stable_arrangement_witness :
  StronglySorted (priceOrdered Asc) Scenes.wardrobeByPrice /\
  (forall k, List.filter (fun p => priceOrZero p =? k) Scenes.wardrobeByPrice =
             List.filter (fun p => priceOrZero p =? k) Samples.wardrobe) /\
  Scenes.wardrobeByPrice = sortByPrice (JsArray Samples.wardrobe) Asc.
Proof.
  assert (Hs : StronglySorted (priceOrdered Asc) Scenes.wardrobeByPrice)
    by (repeat constructor; cbn; lia).
  assert (Hties : forall k,
             List.filter (fun p => priceOrZero p =? k) Scenes.wardrobeByPrice =
             List.filter (fun p => priceOrZero p =? k) Samples.wardrobe)
    by (intros k; unfold Scenes.wardrobeByPrice, Samples.wardrobe;
        cbn [List.filter];
        change (priceOrZero Samples.hat) with 0;
        change (priceOrZero Samples.sock) with 5;
        change (priceOrZero Samples.shirtUpper) with 20;
        change (priceOrZero Samples.shirtLower) with 20;
        destruct (Z.eqb_spec 0 k), (Z.eqb_spec 5 k), (Z.eqb_spec 20 k);
        try lia; reflexivity).
  split; [exact Hs|]. split; [exact Hties|].
  exact (sortByPrice_is_the_stable_arrangement Samples.wardrobe
           Scenes.wardrobeByPrice Asc Hs Hties).
Defined.

(** Searching for "SHIRT" within the results for "Shi". *)
Lemma longer_term_narrows_results_witness :
  "Shi" <> EmptyString /\
  isSubstring (toLowerCase (StringHost := AsciiHost.host) "Shi")
    (toLowerCase (StringHost := AsciiHost.host) "SHIRT") /\
  filter (H := AsciiHost.host) Samples.searchingHat
    (JsArray (filter (H := AsciiHost.host) Samples.searchingHat
                (JsArray Samples.wardrobe) (TermString "Shi")))
    (TermString "SHIRT") =
  filter (H := AsciiHost.host) Samples.searchingHat
    (JsArray Samples.wardrobe) (TermString "SHIRT").
Proof.
  assert (Hne : "Shi" <> EmptyString) by discriminate.
  assert (Hsub : isSubstring (toLowerCase (StringHost := AsciiHost.host) "Shi")
                   (toLowerCase (StringHost := AsciiHost.host) "SHIRT"))
    by (exists EmptyString, "rt"; reflexivity).
  split; [exact Hne|]. split; [exact Hsub|].
  exact (proj1 (longer_term_narrows_results (H := AsciiHost.host)
                  Samples.searchingHat Samples.wardrobe "Shi" "SHIRT" Hne Hsub)).
Defined.

(** "Shirt" and "SHIRT" find the same products. *)
Lemma search_ignores_case_of_term_witness :
  toLowerCase (StringHost := AsciiHost.host) "Shirt" =
  toLowerCase (StringHost := AsciiHost.host) "SHIRT" /\
  filter (H := AsciiHost.host) Samples.searchingHat
    (JsArray Samples.wardrobe) (TermString "Shirt") =
  filter (H := AsciiHost.host) Samples.searchingHat
    (JsArray Samples.wardrobe) (TermString "SHIRT").
Proof.
  assert (Hlow : toLowerCase (StringHost := AsciiHost.host) "Shirt" =
                 toLowerCase (StringHost := AsciiHost.host) "SHIRT")
    by reflexivity.
  split; [exact Hlow|].
  exact (search_ignores_case_of_term (H := AsciiHost.host)
           Samples.searchingHat (JsArray Samples.wardrobe) "Shirt" "SHIRT" Hlow).
Defined.

(** The first click on the price button. *)
Lemma clicked_sort_button_is_the_active_one_witness :
  ("price" = "price" \/ "price" = "title") /\
  (buttonActive
     (sortPriceBtn (updateSortButtons (fst (toggleSort newSortController "price"))))
   = true <-> "price" = "price").
Proof.
  assert (Hf : "price" = "price" \/ "price" = "title") by (left; reflexivity).
  split; [exact Hf|].
  exact (proj1 (clicked_sort_button_is_the_active_one newSortController
                  "price" Hf)).
Defined.

(** After a click on the price button the wardrobe is on show by rising
    price: the hat, which has no price, the sock, then the two shirts. *)
Lemma products_on_show_are_in_order_witness :
  currentPageProducts
    (run (H := AsciiHost.host) Scenes.wardrobeSortedByPrice) =
    Scenes.wardrobeByPrice /\
  StronglySorted (inPriceOrder Asc) Scenes.wardrobeByPrice.
Proof.
  split; [reflexivity|].
  exact (proj1 (products_on_show_are_in_order (H := AsciiHost.host)
                  Scenes.wardrobeSortedByPrice) eq_refl).
Defined.

(** Next and previous on the first page of the sample catalog. *)
Lemma next_then_previous_returns_witness :
  currentPage (paginationController Scenes.loaded) <
  totalPages (paginationController Scenes.loaded) /\
  Scenes.step (Scenes.step Scenes.loaded NextClick) PrevClick = Scenes.loaded.
Proof.
  assert (Hnext : currentPage (paginationController Scenes.loaded) <
                  totalPages (paginationController Scenes.loaded))
    by (vm_compute; reflexivity).
  split; [exact Hnext|].
  exact (proj2 (next_then_previous_returns (H := AsciiHost.host)
                  Scenes.catalogArrives Hnext)).
Defined.

(** Status 503 is reported as a server error. *)
Lemma http_failure_is_reported_by_status_witness :
  ok Scenes.unavailable = false /\
  snd (getAllProducts (FetchFulfilled Scenes.unavailable) EmptyString) =
  errorMessageDiv serverErrorText.
Proof.
  assert (Hok : ok Scenes.unavailable = false) by reflexivity.
  split; [exact Hok|].
  exact (f_equal snd (http_failure_is_reported_by_status Scenes.unavailable
                        EmptyString Hok)).
Defined.

(** Pages of five on the sample catalog. *)
Lemma page_size_change_shows_first_page_witness :
  (5 = 5 \/ 5 = 10 \/ 5 = 20) /\
  currentPage (paginationController
                 (Scenes.step Scenes.loaded (PageSizeSelect 5))) = 1.
Proof.
  assert (Hsize : 5 = 5 \/ 5 = 10 \/ 5 = 20) by (left; reflexivity).
  split; [exact Hsize|].
  exact (proj1 (proj2 (proj2 (page_size_change_shows_first_page
                                (H := AsciiHost.host) Scenes.catalogArrives 5
                                Hsize)))).
Defined.

(** Sorting the sample catalog by price keeps the pagination state. *)
Lemma sort_click_only_rearranges_witness :
  (SortPriceClick = SortPriceClick \/ SortPriceClick = SortNameClick) /\
  paginationController (Scenes.step Scenes.loaded SortPriceClick) =
  paginationController Scenes.loaded.
Proof.
  assert (Hev : SortPriceClick = SortPriceClick \/ SortPriceClick = SortNameClick)
    by (left; reflexivity).
  split; [exact Hev|].
  exact (proj1 (proj2 (sort_click_only_rearranges (H := AsciiHost.host)
                         Scenes.catalogArrives SortPriceClick Hev))).
Defined.

Example errorMessageFor_samples :
  errorMessageFor {| errorName := "TypeError"; errorMessage := "Failed to fetch" |}
    = networkErrorText /\
  errorMessageFor (newError "HTTP error! status: 404") = clientErrorText /\
  errorMessageFor (newError "Invalid data format received from API")
    = invalidDataText /\
  errorMessageFor {| errorName := "AbortError"; errorMessage := "aborted" |}
    = timeoutText /\
  errorMessageFor {| errorName := "TypeError"; errorMessage := "Load failed" |}
    = genericErrorText.
Proof. repeat split; vm_compute; reflexivity. Qed.

Example renderControls_page5of10 :
  pageNumbers (renderPageNumbers Scenes.onPage5of10) = [1; 3; 4; 5; 6; 7; 10] /\
  renderPageNumbers Samples.onPage3 =
    [PageButton 1 false; PageButton 2 false; PageButton 3 true].
Proof. split; reflexivity. Qed.
